(** * bcv_historico: consolidation of BCV exchange-rate workbooks

    A shallow embedding of [src/bcv_historico.py] and the properties of its
    three functions: [extract_date], [process_sheet] and [merge_excel_files].

    Python text is a list of Unicode code points, a pandas frame is a grid of
    cell values, the openpyxl worksheet is a finite map from (row, column) to
    cells, [print] appends a line to the standard output, and exceptions are
    results of a small state-and-error monad. *)

From Stdlib Require Import ZArith NArith List String Ascii Bool Lia.
From stdpp Require Import base option list gmap.

Local Open Scope Z_scope.

(** ** Python text *)

(** A Python [str]: the sequence of its code points. *)
Definition pystr := list N.

(** Text of an ASCII literal of the source. *)
Definition str (s : string) : pystr :=
  List.map N_of_ascii (list_ascii_of_string s).

(** ** Values of a cell

    What [pandas.read_excel(..., header=None)] delivers through xlrd: text,
    integers, floats (NaN for an empty cell), booleans and dates. *)

Inductive float64 :=
  | FNaN
  | FInf (negative : bool)
  | FFinite (mantissa exponent : Z).

Inductive value :=
  | VStr (s : pystr)
  | VInt (z : Z)
  | VFloat (f : float64)
  | VBool (b : bool)
  | VDatetime (seconds : Z).

(** The empty cell of a frame. *)
Definition NaN : value := VFloat FNaN.

(** [pd.notna(v)] on a scalar: false exactly on the missing value. *)
Definition notna (v : value) : bool :=
  match v with
  | VFloat FNaN => false
  | _ => true
  end.

(** ** The regular expression of [extract_date] *)

Module Re.

(** The atoms the pattern is made of: [\d] and a literal character. *)
Inductive atom :=
  | Digit
  | Lit (c : N).

Section Matcher.

(** [\d] on text patterns is the Unicode category Nd; the table lives in
    the interpreter, so the matcher is parametric in it. *)
Variable decimal : N -> bool.

Definition atom_ok (a : atom) (c : N) : bool :=
  match a with
  | Digit => decimal c
  | Lit c' => N.eqb c c'
  end.

(** Match the atoms at the start of [s]; the text matched, if any. *)
Fixpoint match_here (p : list atom) (s : pystr) : option pystr :=
  match p with
  | [] => Some []
  | a :: p' =>
      match s with
      | [] => None
      | c :: s' =>
          if atom_ok a c
          then match match_here p' s' with
               | Some m => Some (c :: m)
               | None => None
               end
          else None
      end
  end.

(** [re.search]: the first start position, from the left, with a match. *)
Fixpoint search (p : list atom) (s : pystr) : option pystr :=
  match match_here p s with
  | Some m => Some m
  | None =>
      match s with
      | [] => None
      | _ :: s' => search p s'
      end
  end.

(** The start positions of [s] at which the pattern matches. *)
Definition match_positions (p : list atom) (s : pystr) : list nat :=
  List.filter (fun i => bool_decide (is_Some (match_here p (drop i s))))
    (seq 0 (S (length s))).

(** A text matches a pattern when the atoms accept it character by
    character. *)
Definition full_match (p : list atom) (d : pystr) : Prop :=
  Forall2 (fun a c => atom_ok a c = true) p d.

End Matcher.

Definition slash : N := 47.

(** [r'\d{2}/\d{2}/\d{4}'] *)
Definition date_pattern : list atom :=
  [Digit; Digit; Lit slash; Digit; Digit; Lit slash;
   Digit; Digit; Digit; Digit].

End Re.

(** The decimal digits of ASCII, for concrete runs. *)
Definition ascii_decimal (c : N) : bool := (48 <=? c)%N && (c <=? 57)%N.

(** ** Exceptions

    Every exception the program meets derives from [Exception]; the two
    classes it can tell apart by itself are named. *)

Inductive exn :=
  | IndexError (msg : pystr)
  | ValueError (msg : pystr)
  | OtherError (cls msg : pystr).

(** [str(e)] *)
Definition exn_msg (e : exn) : pystr :=
  match e with
  | IndexError m | ValueError m | OtherError _ m => m
  end.

(** [except IndexError] *)
Definition is_IndexError (e : exn) : bool :=
  match e with IndexError _ => true | _ => false end.

(** [except Exception] *)
Definition is_Exception (e : exn) : bool := true.

Inductive result (A : Type) :=
  | Ok (a : A)
  | Raise (e : exn).
Arguments Ok {A} a.
Arguments Raise {A} e.

(** ** Frames *)

(** A frame is the rectangle spanned by the rows read from a sheet; a position
    of the rectangle that a short row does not reach is an empty cell. *)
Record DataFrame := { grid : list (list value) }.

Definition nrows (df : DataFrame) : nat := length (grid df).

Definition ncols (df : DataFrame) : nat :=
  fold_right Nat.max 0%nat (List.map (@length value) (grid df)).

Definition out_of_bounds : exn :=
  IndexError (str "single positional indexer is out-of-bounds").

(** [df.iloc[r, c]] for the non-negative positions the program uses. *)
Definition iloc (df : DataFrame) (r c : nat) : result value :=
  if (r <? nrows df)%nat && (c <? ncols df)%nat
  then Ok (nth c (nth r (grid df) []) NaN)
  else Raise out_of_bounds.

(** ** The worksheet *)

Record cell := {
  cell_value : option value;   (* [None] is Python's None *)
  dotted_bottom : bool;        (* border = Border(bottom=Side('dotted')) *)
  bold : bool;                 (* font = Font(bold=True) *)
  centered : bool              (* alignment = Alignment(horizontal='center') *)
}.

Definition blank : cell :=
  {| cell_value := None; dotted_bottom := false; bold := false;
     centered := false |}.

Record worksheet := {
  title : pystr;
  cells : gmap (Z * Z) cell;
  merged_cells : list pystr;
  column_width : list (pystr * Z)
}.

(** [Workbook().active] *)
Definition new_sheet : worksheet :=
  {| title := str "Sheet"; cells := ∅; merged_cells := [];
     column_width := [] |}.

(** The cell at a position, created on first access as openpyxl does. *)
Definition get_cell (w : worksheet) (pos : Z * Z) : cell :=
  default blank (cells w !! pos).

Definition put_cell (w : worksheet) (pos : Z * Z) (c : cell) : worksheet :=
  {| title := title w; cells := <[pos := c]> (cells w);
     merged_cells := merged_cells w; column_width := column_width w |}.

(** The value read back from a position; an absent cell reads as None. *)
Definition value_at (w : worksheet) (pos : Z * Z) : option value :=
  cell_value (get_cell w pos).

Definition bordered (w : worksheet) (pos : Z * Z) : bool :=
  dotted_bottom (get_cell w pos).

Definition with_value (v : value) (c : cell) : cell :=
  {| cell_value := Some v; dotted_bottom := dotted_bottom c; bold := bold c;
     centered := centered c |}.

Definition with_border (c : cell) : cell :=
  {| cell_value := cell_value c; dotted_bottom := true; bold := bold c;
     centered := centered c |}.

Definition with_header_style (c : cell) : cell :=
  {| cell_value := cell_value c; dotted_bottom := dotted_bottom c;
     bold := true; centered := true |}.

(** ** The world the program runs in *)

(** The lines the program prints. *)
Inductive line :=
  | ProcessingFile (name : pystr)
  | RowNotFound (sheet_name : pystr)
  | ErrorProcessing (name msg : pystr)
  | Created (output_path : pystr)
  | FilesProcessed (n : Z)
  | TotalRows (n : Z)
  | FatalError (msg : pystr).

Record world := {
  ws : worksheet;                     (* the sheet of the output workbook *)
  stdout : list line;                 (* printed so far, oldest first *)
  current_row : Z;                    (* the local of [merge_excel_files] *)
  saved : list (pystr * worksheet)    (* workbooks written to disk *)
}.

Definition set_ws (w : worksheet) (σ : world) : world :=
  {| ws := w; stdout := stdout σ; current_row := current_row σ;
     saved := saved σ |}.

Definition set_current_row (r : Z) (σ : world) : world :=
  {| ws := ws σ; stdout := stdout σ; current_row := r; saved := saved σ |}.

Definition add_line (l : line) (σ : world) : world :=
  {| ws := ws σ; stdout := stdout σ ++ [l]; current_row := current_row σ;
     saved := saved σ |}.

Definition add_saved (p : pystr) (σ : world) : world :=
  {| ws := ws σ; stdout := stdout σ; current_row := current_row σ;
     saved := saved σ ++ [(p, ws σ)] |}.

(** ** A state and exception monad *)

Definition M (A : Type) : Type := world -> result A * world.

Definition ret {A} (a : A) : M A := fun σ => (Ok a, σ).

Definition raise {A} (e : exn) : M A := fun σ => (Raise e, σ).

Definition bind {A B} (m : M A) (k : A -> M B) : M B :=
  fun σ =>
    match m σ with
    | (Ok a, σ') => k a σ'
    | (Raise e, σ') => (Raise e, σ')
    end.

Notation "'let*' x ':=' m 'in' k" := (bind m (fun x => k))
  (at level 10, x name, m at level 100, k at level 200).
Notation "m '>>' k" := (bind m (fun _ => k))
  (at level 100, k at level 200, right associativity).

(** [try: body except <handles> as e: handler e] *)
Definition try_except {A} (body : M A) (handles : exn -> bool)
    (handler : exn -> M A) : M A :=
  fun σ =>
    match body σ with
    | (Ok a, σ') => (Ok a, σ')
    | (Raise e, σ') => if handles e then handler e σ' else (Raise e, σ')
    end.

Definition lift {A} (r : result A) : M A := fun σ => (r, σ).

Definition modify (f : world -> world) : M unit := fun σ => (Ok tt, f σ).

Definition read {A} (f : world -> A) : M A := fun σ => (Ok (f σ), σ).

Definition print (l : line) : M unit := modify (add_line l).

(** [for x in xs: body x] *)
Fixpoint for_each {A} (xs : list A) (body : A -> M unit) : M unit :=
  match xs with
  | [] => ret tt
  | x :: xs' => body x >> for_each xs' body
  end.

(** [enumerate(xs, start)] *)
Fixpoint enumerate {A} (start : Z) (xs : list A) : list (Z * A) :=
  match xs with
  | [] => []
  | x :: xs' => (start, x) :: enumerate (start + 1) xs'
  end.

(** [range(start, stop)] *)
Definition range (start stop : Z) : list Z :=
  List.map (fun i => start + Z.of_nat i) (seq 0 (Z.to_nat (stop - start))).

(** ** openpyxl: the calls the program makes

    The program holds one worksheet and reaches its cells through it; a call
    on the worksheet is a function on its contents, run on the worksheet of
    the world. *)

Definition bad_position : exn :=
  ValueError (str "Row or column values must be at least 1").

(** [ws.cell(row, column, value)]: the cell is created when absent, and a
    value of None leaves the cell's value as it is. *)
Definition Worksheet_cell (w : worksheet) (row column : Z)
    (v : option value) : result worksheet :=
  if (row <? 1) || (column <? 1) then Raise bad_position
  else
    let c := get_cell w (row, column) in
    Ok (put_cell w (row, column)
          match v with
          | None => c
          | Some x => with_value x c
          end).

(** [ws.cell(row, column).border = dotted_border] *)
Definition Worksheet_border (w : worksheet) (row column : Z) :
    result worksheet :=
  if (row <? 1) || (column <? 1) then Raise bad_position
  else Ok (put_cell w (row, column) (with_border (get_cell w (row, column)))).

(** [cell.font = header_font; cell.alignment = center_alignment] on the cell
    that [ws.cell] returned for a position. *)
Definition Worksheet_header_style (w : worksheet) (row column : Z) :
    result worksheet :=
  Ok (put_cell w (row, column) (with_header_style (get_cell w (row, column)))).

Definition Worksheet_merge_cells (w : worksheet) (range : pystr) :
    result worksheet :=
  Ok {| title := title w; cells := cells w;
        merged_cells := merged_cells w ++ [range];
        column_width := column_width w |}.

Definition Worksheet_title (w : worksheet) (t : pystr) : result worksheet :=
  Ok {| title := t; cells := cells w; merged_cells := merged_cells w;
        column_width := column_width w |}.

Definition Worksheet_width (w : worksheet) (col : pystr) (width : Z) :
    result worksheet :=
  Ok {| title := title w; cells := cells w; merged_cells := merged_cells w;
        column_width := column_width w ++ [(col, width)] |}.

(** Run a call on the worksheet of the world. *)
Definition on_ws (call : worksheet -> result worksheet) : M unit :=
  fun σ =>
    match call (ws σ) with
    | Ok w' => (Ok tt, set_ws w' σ)
    | Raise e => (Raise e, σ)
    end.

(** ** Input files

    What the file system holds behind a path of the input list: a workbook
    that cannot be opened, or its sheets in their native order, each of them
    readable as a frame or not. *)

Record input_file := {
  file_name : pystr;                                  (* Path(input_file).name *)
  opening : exn + list (pystr * (exn + DataFrame))    (* pd.ExcelFile, pd.read_excel *)
}.

Definition ExcelFile (f : input_file) : M (list (pystr * (exn + DataFrame))) :=
  match opening f with
  | inl e => raise e
  | inr sheets => ret sheets
  end.

Definition read_excel (sheet : pystr * (exn + DataFrame)) : M DataFrame :=
  match snd sheet with
  | inl e => raise e
  | inr df => ret df
  end.

(** ** Shapes of a frame *)

(** Cells (4,1) and (4,3) are inside the frame. *)
Definition dates_readable (df : DataFrame) : bool :=
  (5 <=? nrows df)%nat && (4 <=? ncols df)%nat.

(** Row 14 is inside the frame, with its columns 1 to 6. *)
Definition well_formed (df : DataFrame) : bool :=
  (15 <=? nrows df)%nat && (7 <=? ncols df)%nat.

Section Program.

Variable decimal : N -> bool.

(** What the file system answers when the workbook is written to a path. *)
Variable save_error : pystr -> option exn.

Definition extract_date (date_string : value) : value :=
  match date_string with
  | VStr s =>
      match Re.search decimal Re.date_pattern s with
      | Some m => VStr m
      | None => date_string
      end
  | _ => date_string
  end.

(** [df.iloc[r, c] if pd.notna(df.iloc[r, c]) else "N/A"] *)
Definition cell_or_na (df : DataFrame) (r c : nat) : M value :=
  let* probe := lift (iloc df r c) in
  if notna probe then lift (iloc df r c) else ret (VStr (str "N/A")).

(** The list [row_data] that [process_sheet] builds inside its [try]. *)
Definition read_row_data (df : DataFrame) (b5_date d5_date : value) :
    M (list (option value)) :=
  let* v1 := lift (iloc df 14 1) in
  let* v2 := lift (iloc df 14 2) in
  let* v3 := lift (iloc df 14 3) in
  let* v4 := lift (iloc df 14 4) in
  let* v5 := lift (iloc df 14 5) in
  let* v6 := lift (iloc df 14 6) in
  ret [None; Some v1; Some v2; Some v3; Some v4; Some v5; Some v6;
       Some b5_date; Some d5_date].

(** The worksheet [ws] that the source passes along is the one of the world. *)
Definition process_sheet (df : DataFrame) (current_row : Z)
    (sheet_name : pystr) : M Z :=
  let* b5 := cell_or_na df 4 1 in
  let b5_date := extract_date b5 in
  let* d5 := cell_or_na df 4 3 in
  let d5_date := extract_date d5 in
  try_except
    (let* row_data := read_row_data df b5_date d5_date in
     for_each (enumerate 1 row_data)
       (fun '(col_num, v) =>
          on_ws (fun w => Worksheet_cell w current_row col_num v)) >>
     ret (current_row + 1))
    is_IndexError
    (fun _ => print (RowNotFound sheet_name) >> ret current_row).

Definition headers : list pystr :=
  [str ""; str ""; str "Moneda/Pa" ++ [237%N] ++ str "s"; str "Compra (BID)";
   str "Venta (ASK)"; str "Compra (BID)"; str "Venta (ASK)";
   str "Fecha Operacion"; str "Fecha Valor"].

Definition column_letters : list pystr :=
  List.map (fun a => [N_of_ascii a]) (list_ascii_of_string "ABCDEFGHI").

Definition header_setup : M unit :=
  on_ws (fun w => Worksheet_merge_cells w (str "D1:E1")) >>
  on_ws (fun w => Worksheet_merge_cells w (str "F1:G1")) >>
  on_ws (fun w => Worksheet_cell w 1 4
           (Some (VStr (str "(a) Cotizaci" ++ [243%N] ++ str "n M.E./US$")))) >>
  on_ws (fun w => Worksheet_cell w 1 6 (Some (VStr (str "Bs./M.E.")))) >>
  for_each (enumerate 1 headers)
    (fun '(col_num, header) =>
       on_ws (fun w => Worksheet_cell w 2 col_num (Some (VStr header))) >>
       match header with
       | [] => ret tt
       | _ :: _ => on_ws (fun w => Worksheet_header_style w 2 col_num)
       end) >>
  for_each (combine column_letters [5; 15; 15; 15; 15; 15; 15; 15; 15])
    (fun '(col, width) => on_ws (fun w => Worksheet_width w col width)).

(** The body of the loop over the sheets of a file. *)
Definition sheet_body (sheet : pystr * (exn + DataFrame)) : M unit :=
  let* df := read_excel sheet in
  let* row := read current_row in
  let* row' := process_sheet df row (fst sheet) in
  modify (set_current_row row').

(** The body of the loop over the input files. *)
Definition file_body (n_files : Z) (entry : Z * input_file) : M unit :=
  let '(file_idx, input_file) := entry in
  print (ProcessingFile (file_name input_file)) >>
  try_except
    (let* xls := ExcelFile input_file in
     for_each xls sheet_body >>
     if file_idx <? n_files - 1
     then for_each (range 1 10)
            (fun col =>
               let* row := read current_row in
               on_ws (fun w => Worksheet_border w (row - 1) col))
     else ret tt)
    is_Exception
    (fun e => print (ErrorProcessing (file_name input_file) (exn_msg e))).

(** [wb.save(output_path)] *)
Definition wb_save (output_path : pystr) : M unit :=
  match save_error output_path with
  | Some e => raise e
  | None => modify (add_saved output_path)
  end.

(** From [wb = Workbook()] to [current_row = 3]. *)
Definition workbook_setup : M unit :=
  modify (set_ws new_sheet) >>
  on_ws (fun w => Worksheet_title w (str "Consolidado")) >>
  header_setup >>
  modify (set_current_row 3).

(** The loop over the input files, from the file of index [file_idx] on. *)
Definition files_loop (n_files file_idx : Z) (files : list input_file) :
    M unit :=
  for_each (enumerate file_idx files) (file_body n_files).

Definition merge_excel_files (input_files : list input_file)
    (output_path : pystr) : M unit :=
  try_except
    (workbook_setup >>
     files_loop (Z.of_nat (length input_files)) 0 input_files >>
     wb_save output_path >>
     print (Created output_path) >>
     print (FilesProcessed (Z.of_nat (length input_files))) >>
     let* row := read current_row in
     print (TotalRows (row - 3)))
    is_Exception
    (fun e => print (FatalError (exn_msg e))).

(** ** Notions the properties are stated with *)

(** [d] is date-shaped: it matches [\d\d/\d\d/\d\d\d\d] as a whole. *)
Definition date_shaped (d : pystr) : Prop :=
  Re.full_match decimal Re.date_pattern d.

(** The cell of the grid behind a position inside the frame. *)
Definition entry (df : DataFrame) (r c : nat) : value :=
  nth c (nth r (grid df) []) NaN.

Definition or_na (v : value) : value :=
  if notna v then v else VStr (str "N/A").

(** The row a frame with a data row is projected to. *)
Definition projection (df : DataFrame) : list (option value) :=
  [None; Some (entry df 14 1); Some (entry df 14 2); Some (entry df 14 3);
   Some (entry df 14 4); Some (entry df 14 5); Some (entry df 14 6);
   Some (extract_date (or_na (entry df 4 1)));
   Some (extract_date (or_na (entry df 4 3)))].

(** What becomes of a sheet in the loop: a row, the row-not-found line, or an
    exception that ends the file. *)
Inductive fate :=
  | Projected (row : list (option value))
  | NoDataRow
  | Aborts (e : exn).

Definition sheet_fate (sheet : pystr * (exn + DataFrame)) : fate :=
  match snd sheet with
  | inl e => Aborts e
  | inr df =>
      if dates_readable df
      then if well_formed df then Projected (projection df) else NoDataRow
      else Aborts out_of_bounds
  end.

(** The rows the sheets of a file contribute, up to the first exception. *)
Fixpoint sheets_rows (sheets : list (pystr * (exn + DataFrame))) :
    list (list (option value)) :=
  match sheets with
  | [] => []
  | sheet :: rest =>
      match sheet_fate sheet with
      | Projected row => row :: sheets_rows rest
      | NoDataRow => sheets_rows rest
      | Aborts _ => []
      end
  end.

(** The exception that ends the loop over the sheets, if any. *)
Fixpoint sheets_error (sheets : list (pystr * (exn + DataFrame))) :
    option exn :=
  match sheets with
  | [] => None
  | sheet :: rest =>
      match sheet_fate sheet with
      | Aborts e => Some e
      | _ => sheets_error rest
      end
  end.

Definition file_rows (f : input_file) : list (list (option value)) :=
  match opening f with
  | inl _ => []
  | inr sheets => sheets_rows sheets
  end.

Definition file_error (f : input_file) : option exn :=
  match opening f with
  | inl e => Some e
  | inr sheets => sheets_error sheets
  end.


(** The world after the setup and the first [k] files of the list. *)
Definition after_files (files : list input_file) (k : nat) (σ : world) :
    world :=
  snd ((workbook_setup >>
        files_loop (Z.of_nat (length files)) 0 (take k files)) σ).

(** The file is processed to its end without an exception. *)
Definition file_ok (f : input_file) : bool :=
  match file_error f with
  | None => true
  | Some _ => false
  end.

End Program.

(** The number of sheets of a file that opens. *)
Definition file_sheets (f : input_file) : nat :=
  match opening f with
  | inl _ => 0%nat
  | inr sheets => length sheets
  end.


(** One write of [ws.cell] at a valid position. *)
Definition write (w : worksheet) (pos : Z * Z) (v : option value) :
    worksheet :=
  put_cell w pos
    match v with
    | None => get_cell w pos
    | Some x => with_value x (get_cell w pos)
    end.

(** The writes of a row of values from a column on. *)
Fixpoint write_row (w : worksheet) (row col : Z) (vs : list (option value)) :
    worksheet :=
  match vs with
  | [] => w
  | v :: vs' => write_row (write w (row, col) v) row (col + 1) vs'
  end.

(** No cell at or below a row. *)
Definition clear_from (w : worksheet) (row : Z) : Prop :=
  forall r c, row <= r -> cells w !! (r, c) = None.

(** The worksheet holds the rows from a row on, one after the other. *)
Definition rows_at (w : worksheet) (row : Z)
    (rows : list (list (option value))) : Prop :=
  forall k fields, rows !! k = Some fields ->
    length fields = 9%nat /\
    forall j, (j < 9)%nat ->
      value_at w (row + Z.of_nat k, 1 + Z.of_nat j) = nth j fields None.

(** The cursor is past the header and no cell lies at or below it. *)
Definition ready (σ : world) : Prop :=
  3 <= current_row σ /\ clear_from (ws σ) (current_row σ).

(** [σ'] comes from [σ] by appending rows at the cursor: the cursor advances
    by their number, the rows above the old cursor keep their values, borders
    stay, nothing lies below the new cursor, and lines are only added. *)
Definition extends (rows : list (list (option value))) (σ σ' : world) : Prop :=
  current_row σ' = current_row σ + Z.of_nat (length rows) /\
  clear_from (ws σ') (current_row σ') /\
  (forall r c, r < current_row σ ->
     value_at (ws σ') (r, c) = value_at (ws σ) (r, c)) /\
  rows_at (ws σ') (current_row σ) rows /\
  (forall pos, bordered (ws σ) pos = true -> bordered (ws σ') pos = true) /\
  saved σ' = saved σ /\
  exists more, stdout σ' = stdout σ ++ more.

(** Only the header rows hold cells, and no cell has a border. *)
Definition header_only (w : worksheet) : Prop :=
  clear_from w 3 /\ forall pos, bordered w pos = false.

(** [m] runs to its end from every world that satisfies [P], into a world
    that satisfies [P]. *)
Definition preserves (P : world -> Prop) (m : M unit) : Prop :=
  forall σ, P σ -> exists σ', m σ = (Ok tt, σ') /\ P σ'.

(** What holds during the setup: a header-only worksheet, and the lines
    and the disk as they were. *)
Definition setup_inv (out : list line) (sv : list (pystr * worksheet))
    (σ : world) : Prop :=
  header_only (ws σ) /\ stdout σ = out /\ saved σ = sv.

(** ** Sample inputs *)

Module Sample.

(** A frame of the given shape whose cell (r, c) holds 100 r + c. *)
Definition frame (rows cols : nat) : DataFrame :=
  {| grid :=
       List.map (fun r => List.map (fun c => VInt (Z.of_nat (100 * r + c)))
                            (seq 0 cols))
         (seq 0 rows) |}.

(** The frame of a sheet of rates: a labelled date in cell (4,1), an empty
    cell (4,3). *)
Definition rates : DataFrame :=
  {| grid :=
       List.map (fun r =>
         if (r =? 4)%nat
         then [VInt 400; VStr (str "Fecha Operacion: 27/03/2024"); VInt 402;
               NaN; VInt 404; VInt 405; VInt 406]
         else List.map (fun c => VInt (Z.of_nat (100 * r + c))) (seq 0 7))
         (seq 0 15) |}.

Definition boot : world :=
  {| ws := new_sheet; stdout := []; current_row := 0; saved := [] |}.

Definition disk_ok (path : pystr) : option exn := None.

Definition disk_full (path : pystr) : option exn :=
  Some (OtherError (str "OSError") (str "No space left on device")).


(** A workbook with one sheet of rates. *)
Definition one_sheet (name : string) : input_file :=
  {| file_name := str name; opening := inr [(str "Hoja1", inr rates)] |}.

(** A workbook whose only sheet stops at row index 9. *)
Definition short_sheet (name : string) : input_file :=
  {| file_name := str name; opening := inr [(str "Hoja1", inr (frame 10 7))] |}.





Definition out : pystr := str "CONSOLIDATED_OUTPUT.xlsx".

End Sample.

(** ** The run as a function

    What one file and what the whole list make of the world, written without
    the monad; the loops are proved to compute these. *)

(** The rows of the files written one under the other from a row on. *)
Fixpoint write_rows (w : worksheet) (row : Z)
    (rows : list (list (option value))) : worksheet :=
  match rows with
  | [] => w
  | fields :: rest => write_rows (write_row w row 1 fields) (row + 1) rest
  end.

(** The separator on the nine columns of a row. *)
Definition border_row (w : worksheet) (row : Z) : worksheet :=
  fold_left
    (fun w' col => put_cell w' (row, col) (with_border (get_cell w' (row, col))))
    (range 1 10) w.

(** The worksheet once the setup is done. *)
Definition header_sheet : worksheet :=
  ws (snd (workbook_setup Sample.boot)).

Section RunFunction.

Variable decimal : N -> bool.

(** The row-not-found lines of the sheets of a file, up to the first
    exception. *)
Fixpoint sheets_lines (sheets : list (pystr * (exn + DataFrame))) : list line :=
  match sheets with
  | [] => []
  | sheet :: rest =>
      match sheet_fate decimal sheet with
      | Projected _ => sheets_lines rest
      | NoDataRow => RowNotFound (fst sheet) :: sheets_lines rest
      | Aborts _ => []
      end
  end.

(** The lines one file adds to the output. *)
Definition file_lines (f : input_file) : list line :=
  ProcessingFile (file_name f) ::
  match opening f with
  | inl e => [ErrorProcessing (file_name f) (exn_msg e)]
  | inr sheets =>
      sheets_lines sheets ++
      match sheets_error decimal sheets with
      | Some e => [ErrorProcessing (file_name f) (exn_msg e)]
      | None => []
      end
  end.

(** The file gets a separator: it is processed to its end and is not the
    last. *)
Definition separated (n_files file_idx : Z) (f : input_file) : bool :=
  file_ok decimal f && (file_idx <? n_files - 1).

(** The world after the body of the loop has run on a file. *)
Definition after_file (n_files file_idx : Z) (f : input_file) (σ : world) :
    world :=
  let rows := file_rows decimal f in
  let row' := current_row σ + Z.of_nat (length rows) in
  let w := write_rows (ws σ) (current_row σ) rows in
  {| ws := if separated n_files file_idx f then border_row w (row' - 1) else w;
     stdout := stdout σ ++ file_lines f;
     current_row := row';
     saved := saved σ |}.

(** The world after the loop has run on the files from an index on. *)
Fixpoint files_world (n_files file_idx : Z) (files : list input_file)
    (σ : world) : world :=
  match files with
  | [] => σ
  | f :: rest => files_world n_files (file_idx + 1) rest
                   (after_file n_files file_idx f σ)
  end.

End RunFunction.


(** Two worksheets with the same title, merged ranges, column widths, fonts
    and alignments. *)
Definition same_format (w w' : worksheet) : Prop :=
  title w' = title w /\ merged_cells w' = merged_cells w /\
  column_width w' = column_width w /\
  forall pos, bold (get_cell w' pos) = bold (get_cell w pos) /\
              centered (get_cell w' pos) = centered (get_cell w pos).

(** * Properties *)

(** ** The matcher *)

Section MatcherFacts.

Variable decimal : N -> bool.

Lemma match_here_sound p s m :
  Re.match_here decimal p s = Some m ->
  Re.full_match decimal p m /\ exists post, s = m ++ post.
Proof.
  revert s m. induction p as [|a p IH]; intros s m; simpl.
  - intros [= <-]. split; [constructor | by exists s].
  - destruct s as [|c s]; [done|].
    destruct (Re.atom_ok decimal a c) eqn:Hc; [|done].
    destruct (Re.match_here decimal p s) as [m'|] eqn:Hm; [|done].
    intros [= <-]. destruct (IH _ _ Hm) as [Hfull [post ->]].
    split; [by constructor | by exists post].
Qed.

Lemma match_here_complete p d post :
  Re.full_match decimal p d ->
  Re.match_here decimal p (d ++ post) = Some d.
Proof.
  induction 1 as [|a c p d Hc _ IH]; simpl; [done|].
  by rewrite Hc, IH.
Qed.

(** A pattern of atoms matches texts of its own length only. *)
Lemma full_match_length p d :
  Re.full_match decimal p d -> length d = length p.
Proof. intros H. symmetry. exact (Forall2_length _ _ _ H). Qed.

Lemma search_sound p s m :
  Re.search decimal p s = Some m ->
  exists pre post,
    s = pre ++ m ++ post /\ Re.full_match decimal p m /\
    forall pre' d' post',
      s = pre' ++ d' ++ post' -> Re.full_match decimal p d' ->
      (length pre <= length pre')%nat.
Proof.
  revert m. induction s as [|c s IH]; intros m; simpl.
  - destruct (Re.match_here decimal p []) as [m'|] eqn:Hm; [|done].
    intros [= <-]. destruct (match_here_sound _ _ _ Hm) as [Hfull [post Hs]].
    exists [], post. simpl. split_and!; [done | done | intros; lia].
  - destruct (Re.match_here decimal p (c :: s)) as [m'|] eqn:Hm.
    + intros [= <-]. destruct (match_here_sound _ _ _ Hm) as [Hfull [post Hs]].
      exists [], post. simpl. split_and!; [done | done | intros; lia].
    + intros Hs. destruct (IH _ Hs) as (pre & post & -> & Hfull & Hleft).
      exists (c :: pre), post. split_and!; [done | done |].
      intros pre' d' post' Heq Hd'. destruct pre' as [|c' pre'].
      * simpl in Heq. rewrite Heq in Hm.
        by rewrite (match_here_complete _ _ _ Hd') in Hm.
      * simpl in Heq. injection Heq as -> Heq. simpl.
        specialize (Hleft _ _ _ Heq Hd'). lia.
Qed.

Lemma search_complete p s pre d post :
  s = pre ++ d ++ post -> Re.full_match decimal p d ->
  exists m, Re.search decimal p s = Some m.
Proof.
  revert s. induction pre as [|c pre IH]; intros s -> Hd.
  - exists d. simpl. destruct (d ++ post) eqn:E; simpl;
      rewrite <- ?E, (match_here_complete _ _ _ Hd); done.
  - simpl. destruct (Re.match_here decimal p (c :: pre ++ d ++ post)); [eauto|].
    by apply IH.
Qed.

(** Two matches of one pattern that start at the same place are the same. *)
Lemma full_match_same_start p pre d post pre' d' post' :
  pre ++ d ++ post = pre' ++ d' ++ post' ->
  Re.full_match decimal p d -> Re.full_match decimal p d' ->
  length pre = length pre' -> d = d'.
Proof.
  intros Heq Hd Hd' Hlen.
  apply app_inj_1 in Heq as [_ Heq]; [|done].
  apply app_inj_1 in Heq as [? _]; [done|].
  by rewrite (full_match_length _ _ Hd), (full_match_length _ _ Hd').
Qed.

Lemma search_leftmost p s pre d post :
  s = pre ++ d ++ post -> Re.full_match decimal p d ->
  (forall pre' d' post',
     s = pre' ++ d' ++ post' -> Re.full_match decimal p d' ->
     (length pre <= length pre')%nat) ->
  Re.search decimal p s = Some d.
Proof.
  intros Hs Hd Hleft.
  destruct (search_complete _ _ _ _ _ Hs Hd) as [m Hm].
  destruct (search_sound _ _ _ Hm) as (pre' & post' & Hs' & Hm' & Hleft').
  rewrite Hm. f_equal. symmetry.
  apply (full_match_same_start p pre d post pre' m post'); [congruence|done..|].
  specialize (Hleft _ _ _ Hs' Hm'). specialize (Hleft' _ _ _ Hs Hd). lia.
Qed.

Lemma search_none p s :
  Re.search decimal p s = None ->
  forall pre d post, s = pre ++ d ++ post -> ~ Re.full_match decimal p d.
Proof.
  intros Hnone pre d post Hs Hd.
  destruct (search_complete _ _ _ _ _ Hs Hd) as [m Hm]. congruence.
Qed.


End MatcherFacts.

(** ** [extract_date] *)

Section ExtractDateFacts.

Variable decimal : N -> bool.

Lemma occurrence_position p s pre d post :
  s = pre ++ d ++ post -> Re.full_match decimal p d ->
  In (length pre) (Re.match_positions decimal p s).
Proof.
  intros -> Hd. unfold Re.match_positions. apply filter_In. split.
  - apply in_seq. rewrite !length_app. lia.
  - apply bool_decide_eq_true. rewrite drop_app_length.
    rewrite (match_here_complete _ _ _ _ Hd). by eexists.
Qed.

(** C3: on a text that contains a date-shaped substring, [extract_date]
    returns a date-shaped substring of it, which is the substring [d] itself
    whenever [d] is the only date-shaped text that occurs, whatever surrounds
    it; on a text with no date-shaped substring and on a value that is not a
    text it returns its argument. Being a total function, it raises
    nothing. *)
Theorem extract_date_contract :
  (forall pre d post, date_shaped decimal d ->
     exists pre' d' post',
       pre ++ d ++ post = pre' ++ d' ++ post' /\ date_shaped decimal d' /\
       extract_date decimal (VStr (pre ++ d ++ post)) = VStr d') /\
  (forall pre d post, date_shaped decimal d ->
     (forall pre' d' post',
        pre ++ d ++ post = pre' ++ d' ++ post' -> date_shaped decimal d' ->
        d' = d) ->
     extract_date decimal (VStr (pre ++ d ++ post)) = VStr d) /\
  (forall s,
     (forall pre d post, s = pre ++ d ++ post -> ~ date_shaped decimal d) ->
     extract_date decimal (VStr s) = VStr s) /\
  (forall v, (forall s, v <> VStr s) -> extract_date decimal v = v).
Proof.
  assert (Hex : forall pre d post, date_shaped decimal d ->
     exists pre' d' post',
       pre ++ d ++ post = pre' ++ d' ++ post' /\ date_shaped decimal d' /\
       extract_date decimal (VStr (pre ++ d ++ post)) = VStr d').
  { intros pre d post Hd. unfold extract_date.
    destruct (search_complete decimal _ _ pre d post eq_refl Hd) as [m Hm].
    rewrite Hm.
    destruct (search_sound _ _ _ _ Hm) as (pre' & post' & Hs & Hfull & _).
    by exists pre', m, post'. }
  split_and!.
  - exact Hex.
  - intros pre d post Hd Honly.
    destruct (Hex pre d post Hd) as (pre' & d' & post' & Hs & Hd' & ->).
    f_equal. by apply (Honly pre' d' post').
  - intros s Hnone. unfold extract_date.
    destruct (Re.search decimal Re.date_pattern s) as [m|] eqn:Hm; [|done].
    destruct (search_sound _ _ _ _ Hm) as (pre' & post' & Hs & Hfull & _).
    by destruct (Hnone _ _ _ Hs).
  - intros v Hv. destruct v; try done. by destruct (Hv s).
Qed.

(** C10: when several date-shaped substrings occur in a text, [extract_date]
    returns the leftmost one: the occurrence before which no other one
    starts. *)
Theorem extract_date_leftmost s pre d post :
  s = pre ++ d ++ post -> date_shaped decimal d ->
  (forall pre' d' post',
     s = pre' ++ d' ++ post' -> date_shaped decimal d' ->
     (length pre <= length pre')%nat) ->
  extract_date decimal (VStr s) = VStr d.
Proof.
  intros Hs Hd Hleft. unfold extract_date.
  by rewrite (search_leftmost decimal _ _ _ _ _ Hs Hd Hleft).
Qed.


End ExtractDateFacts.

(** ** The worksheet *)

Lemma set_ws_same σ : set_ws (ws σ) σ = σ.
Proof. by destruct σ. Qed.

Lemma value_at_write w pos v pos' :
  value_at (write w pos v) pos' =
  if decide (pos = pos')
  then match v with Some x => Some x | None => value_at w pos end
  else value_at w pos'.
Proof.
  unfold value_at, write, get_cell, put_cell; simpl.
  rewrite lookup_insert. case_decide; [|done]. by destruct v.
Qed.

Lemma bordered_write w pos v pos' :
  bordered (write w pos v) pos' = bordered w pos'.
Proof.
  unfold bordered, write, get_cell, put_cell; simpl.
  rewrite lookup_insert. case_decide; [subst|done]. by destruct v.
Qed.

Lemma cells_write_ne w pos v pos' :
  pos <> pos' -> cells (write w pos v) !! pos' = cells w !! pos'.
Proof. intros Hne. unfold write, put_cell; simpl. by rewrite lookup_insert_ne. Qed.

Lemma value_at_write_row w row col vs r c :
  value_at (write_row w row col vs) (r, c) =
  if decide (r = row /\ col <= c < col + Z.of_nat (length vs))
  then match nth (Z.to_nat (c - col)) vs None with
       | Some x => Some x
       | None => value_at w (r, c)
       end
  else value_at w (r, c).
Proof.
  revert w col. induction vs as [|v vs IH]; intros w col; simpl.
  - case_decide; [lia | done].
  - rewrite IH, value_at_write.
    destruct (decide (c = col)) as [->|Hc].
    + rewrite Z.sub_diag. simpl.
      destruct (decide (r = row)) as [->|Hr].
      * rewrite decide_False by lia. rewrite decide_True by done.
        rewrite decide_True by lia. done.
      * rewrite decide_False by lia. rewrite decide_False by congruence.
        rewrite decide_False by lia. done.
    + rewrite (decide_False (P := (row, col) = (r, c))) by congruence.
      repeat case_decide; try lia; try done.
      replace (Z.to_nat (c - col)) with (S (Z.to_nat (c - (col + 1)))) by lia.
      done.
Qed.

Lemma bordered_write_row w row col vs pos :
  bordered (write_row w row col vs) pos = bordered w pos.
Proof.
  revert w col. induction vs as [|v vs IH]; intros w col; simpl; [done|].
  by rewrite IH, bordered_write.
Qed.

Lemma cells_write_row_other w row col vs r c :
  r <> row -> cells (write_row w row col vs) !! (r, c) = cells w !! (r, c).
Proof.
  intros Hr. revert w col. induction vs as [|v vs IH]; intros w col; simpl; [done|].
  rewrite IH, cells_write_ne; [done | congruence].
Qed.



(** ** [process_sheet] *)

Lemma iloc_decide df r c :
  iloc df r c =
  if bool_decide ((r < nrows df)%nat /\ (c < ncols df)%nat)
  then Ok (entry df r c) else Raise out_of_bounds.
Proof.
  unfold iloc, entry.
  destruct (Nat.ltb_spec r (nrows df)), (Nat.ltb_spec c (ncols df)); simpl;
    case_bool_decide; (done || lia).
Qed.

Lemma dates_readable_spec df :
  dates_readable df = true <-> (5 <= nrows df)%nat /\ (4 <= ncols df)%nat.
Proof.
  unfold dates_readable. rewrite andb_true_iff, !Nat.leb_le. done.
Qed.

Lemma well_formed_spec df :
  well_formed df = true <-> (15 <= nrows df)%nat /\ (7 <= ncols df)%nat.
Proof.
  unfold well_formed. rewrite andb_true_iff, !Nat.leb_le. done.
Qed.

Lemma well_formed_readable df :
  well_formed df = true -> dates_readable df = true.
Proof. rewrite well_formed_spec, dates_readable_spec. lia. Qed.

Lemma on_ws_cell row col v σ :
  1 <= row -> 1 <= col ->
  on_ws (fun w => Worksheet_cell w row col v) σ =
  (Ok tt, set_ws (write (ws σ) (row, col) v) σ).
Proof.
  intros Hrow Hcol. unfold on_ws, Worksheet_cell.
  destruct (Z.ltb_spec row 1), (Z.ltb_spec col 1); try lia. done.
Qed.

Lemma on_ws_cell_bad_row row col v σ :
  row < 1 ->
  on_ws (fun w => Worksheet_cell w row col v) σ = (Raise bad_position, σ).
Proof.
  intros Hrow. unfold on_ws, Worksheet_cell.
  destruct (Z.ltb_spec row 1); [done | lia].
Qed.

Lemma write_loop row col vs σ :
  1 <= row -> 1 <= col ->
  for_each (enumerate col vs)
    (fun '(col_num, v) => on_ws (fun w => Worksheet_cell w row col_num v)) σ
  = (Ok tt, set_ws (write_row (ws σ) row col vs) σ).
Proof.
  intros Hrow. revert col σ. induction vs as [|v vs IH]; intros col σ Hcol; simpl.
  - by rewrite set_ws_same.
  - unfold bind at 1. rewrite on_ws_cell by done.
    rewrite IH by lia. done.
Qed.

Lemma write_loop_bad_row row col v vs σ :
  row < 1 ->
  for_each (enumerate col (v :: vs))
    (fun '(col_num, v) => on_ws (fun w => Worksheet_cell w row col_num v)) σ
  = (Raise bad_position, σ).
Proof.
  intros Hrow. simpl. unfold bind. by rewrite on_ws_cell_bad_row.
Qed.

Section ProcessSheetFacts.

Variable decimal : N -> bool.

Lemma cell_or_na_inside df r c σ :
  (r < nrows df)%nat -> (c < ncols df)%nat ->
  cell_or_na df r c σ = (Ok (or_na (entry df r c)), σ).
Proof.
  intros Hr Hc. unfold cell_or_na, bind, lift, or_na, ret.
  rewrite iloc_decide, bool_decide_eq_true_2 by done.
  by destruct (notna (entry df r c)).
Qed.

Lemma cell_or_na_outside df r c σ :
  ~ ((r < nrows df)%nat /\ (c < ncols df)%nat) ->
  cell_or_na df r c σ = (Raise out_of_bounds, σ).
Proof.
  intros H. unfold cell_or_na, bind, lift.
  by rewrite iloc_decide, bool_decide_eq_false_2.
Qed.

Lemma read_row_data_well_formed df b5 d5 σ :
  well_formed df = true ->
  read_row_data df b5 d5 σ =
  (Ok [None; Some (entry df 14 1); Some (entry df 14 2); Some (entry df 14 3);
       Some (entry df 14 4); Some (entry df 14 5); Some (entry df 14 6);
       Some b5; Some d5], σ).
Proof.
  rewrite well_formed_spec. intros [Hr Hc].
  unfold read_row_data, bind, lift, ret. rewrite !iloc_decide.
  rewrite !bool_decide_eq_true_2 by lia. done.
Qed.

Lemma read_row_data_no_row df b5 d5 σ :
  well_formed df = false ->
  read_row_data df b5 d5 σ = (Raise out_of_bounds, σ).
Proof.
  intros Hwf. unfold read_row_data, bind, lift, ret. rewrite !iloc_decide.
  repeat case_bool_decide; try done.
  assert (well_formed df = true) by (apply well_formed_spec; lia). congruence.
Qed.

(** A sheet on which cell (4,1) or (4,3) is outside the frame: the exception
    leaves [process_sheet]. *)
Lemma process_sheet_unreadable df cur name σ :
  dates_readable df = false ->
  process_sheet decimal df cur name σ = (Raise out_of_bounds, σ).
Proof.
  intros Hd. unfold process_sheet. unfold bind at 1.
  destruct (decide ((4 < nrows df)%nat /\ (1 < ncols df)%nat)) as [[Hr Hc]|Hout].
  - rewrite cell_or_na_inside by done. unfold bind at 1.
    rewrite cell_or_na_outside; [done|].
    intros [_ Hc3].
    assert (dates_readable df = true) by (apply dates_readable_spec; lia).
    congruence.
  - by rewrite cell_or_na_outside.
Qed.

(** A sheet with its date cells but without the data row: nothing is
    written, the line is printed and the cursor comes back as it was. *)
Lemma process_sheet_no_row df cur name σ :
  dates_readable df = true -> well_formed df = false ->
  process_sheet decimal df cur name σ = (Ok cur, add_line (RowNotFound name) σ).
Proof.
  intros Hd Hwf. apply dates_readable_spec in Hd as [Hr Hc].
  unfold process_sheet. unfold bind at 1.
  rewrite cell_or_na_inside by lia. unfold bind at 1.
  rewrite cell_or_na_inside by lia.
  unfold try_except. unfold bind at 1.
  by rewrite read_row_data_no_row.
Qed.

(** A sheet with the data row: the nine fields go to the row of the cursor,
    which comes back advanced by one. *)
Lemma process_sheet_written df cur name σ :
  well_formed df = true -> 1 <= cur ->
  process_sheet decimal df cur name σ =
  (Ok (cur + 1), set_ws (write_row (ws σ) cur 1 (projection decimal df)) σ).
Proof.
  intros Hwf Hcur. pose proof Hwf as [Hr Hc]%well_formed_spec.
  unfold process_sheet. unfold bind at 1.
  rewrite cell_or_na_inside by lia. unfold bind at 1.
  rewrite cell_or_na_inside by lia.
  unfold try_except. unfold bind at 1.
  rewrite read_row_data_well_formed by done.
  unfold bind at 1. rewrite write_loop by lia. done.
Qed.

Lemma process_sheet_bad_cursor df cur name σ :
  well_formed df = true -> cur < 1 ->
  process_sheet decimal df cur name σ = (Raise bad_position, σ).
Proof.
  intros Hwf Hcur. pose proof Hwf as [Hr Hc]%well_formed_spec.
  unfold process_sheet. unfold bind at 1.
  rewrite cell_or_na_inside by lia. unfold bind at 1.
  rewrite cell_or_na_inside by lia.
  unfold try_except. unfold bind at 1.
  rewrite read_row_data_well_formed by done.
  unfold bind at 1. rewrite write_loop_bad_row by done. done.
Qed.

End ProcessSheetFacts.

(** ** Rows appended at the cursor *)

Lemma clear_value_at w row r c :
  clear_from w row -> row <= r -> value_at w (r, c) = None.
Proof. intros Hclear Hr. unfold value_at, get_cell. by rewrite Hclear. Qed.

Lemma extends_refl σ : ready σ -> extends [] σ σ.
Proof.
  intros [Hrow Hclear]. unfold extends. simpl. rewrite Z.add_0_r.
  split_and!; try done.
  exists []. by rewrite app_nil_r.
Qed.

Lemma extends_ready rows σ σ' : ready σ -> extends rows σ σ' -> ready σ'.
Proof. intros [Hrow _] (Hcur & Hclear & _). split; [lia | done]. Qed.

Lemma extends_trans rows1 rows2 σ1 σ2 σ3 :
  extends rows1 σ1 σ2 -> extends rows2 σ2 σ3 ->
  extends (rows1 ++ rows2) σ1 σ3.
Proof.
  intros (Hc1 & Hcl1 & Hv1 & Hr1 & Hb1 & Hs1 & [m1 Ho1])
         (Hc2 & Hcl2 & Hv2 & Hr2 & Hb2 & Hs2 & [m2 Ho2]).
  unfold extends. rewrite length_app, Nat2Z.inj_add.
  split_and!.
  - lia.
  - done.
  - intros r c Hr. rewrite Hv2 by lia. by apply Hv1.
  - intros k fields Hk.
    destruct (decide (k < length rows1)%nat) as [Hlt|Hge].
    + rewrite lookup_app_l in Hk by done.
      destruct (Hr1 _ _ Hk) as [Hlen Hval]. split; [done|].
      intros j Hj. rewrite Hv2 by lia. by apply Hval.
    + rewrite lookup_app_r in Hk by lia.
      destruct (Hr2 _ _ Hk) as [Hlen Hval]. split; [done|].
      intros j Hj. rewrite <- (Hval j Hj). f_equal. f_equal. lia.
  - auto.
  - congruence.
  - exists (m1 ++ m2). by rewrite Ho2, Ho1, app_assoc.
Qed.

Lemma extends_add_line rows σ σ' l :
  extends rows σ σ' -> extends rows σ (add_line l σ').
Proof.
  intros (Hc & Hcl & Hv & Hr & Hb & Hs & [m Ho]).
  unfold extends; simpl. split_and!; try done.
  exists (m ++ [l]). by rewrite Ho, app_assoc.
Qed.

Lemma extends_of_line rows σ σ' l :
  extends rows (add_line l σ) σ' -> extends rows σ σ'.
Proof.
  intros (Hc & Hcl & Hv & Hr & Hb & Hs & [m Ho]).
  unfold extends; simpl in *. split_and!; try done.
  exists (l :: m). by rewrite Ho, <- app_assoc.
Qed.

(** Writing a projected row at the cursor and advancing it. *)
Lemma extends_write_row fields σ :
  ready σ -> length fields = 9%nat ->
  extends [fields]
    σ (set_current_row (current_row σ + 1)
         (set_ws (write_row (ws σ) (current_row σ) 1 fields) σ)).
Proof.
  intros [Hrow Hclear] Hlen. unfold extends; simpl.
  split_and!; try done.
  - intros r c Hr. rewrite cells_write_row_other by lia. apply Hclear. lia.
  - intros r c Hr. rewrite value_at_write_row. by rewrite decide_False by lia.
  - intros k fs Hk. destruct k as [|k]; [|done].
    injection Hk as <-. split; [done|]. intros j Hj.
    rewrite value_at_write_row, decide_True by lia.
    replace (Z.to_nat (1 + Z.of_nat j - 1)) with j by lia.
    destruct (nth j fields None); [done|].
    apply (clear_value_at _ _ _ _ Hclear). lia.
  - intros pos. by rewrite bordered_write_row.
  - exists []. by rewrite app_nil_r.
Qed.

(** ** The loops of [merge_excel_files] *)

Lemma for_each_app {A} (xs ys : list A) (body : A -> M unit) σ :
  for_each (xs ++ ys) body σ =
  match for_each xs body σ with
  | (Ok _, σ') => for_each ys body σ'
  | (Raise e, σ') => (Raise e, σ')
  end.
Proof.
  revert σ. induction xs as [|x xs IH]; intros σ; simpl; [done|].
  unfold bind. destruct (body x σ) as [[[]|e] σ']; [apply IH | done].
Qed.

Lemma enumerate_app {A} (start : Z) (xs ys : list A) :
  enumerate start (xs ++ ys) =
  enumerate start xs ++ enumerate (start + Z.of_nat (length xs)) ys.
Proof.
  revert start. induction xs as [|x xs IH]; intros start; simpl.
  - by rewrite Z.add_0_r.
  - rewrite IH. do 3 f_equal. lia.
Qed.

(** [try ... except Exception] with a handler that only prints never
    raises. *)
Lemma try_except_Exception_ok (body : M unit) (report : exn -> line) σ :
  exists σ',
    try_except body is_Exception (fun e => print (report e)) σ = (Ok tt, σ').
Proof.
  unfold try_except. destruct (body σ) as [[[]|e] σ']; simpl; eauto.
Qed.

Section LoopFacts.

Variable decimal : N -> bool.
Variable save_error : pystr -> option exn.


(** One turn of the loop over the sheets. *)
Lemma sheet_body_spec sheet σ :
  ready σ ->
  match sheet_fate decimal sheet with
  | Projected fields =>
      exists σ', sheet_body decimal sheet σ = (Ok tt, σ') /\
                 extends [fields] σ σ'
  | NoDataRow =>
      sheet_body decimal sheet σ =
      (Ok tt, set_current_row (current_row σ)
                (add_line (RowNotFound (fst sheet)) σ))
  | Aborts e => sheet_body decimal sheet σ = (Raise e, σ)
  end.
Proof.
  intros Hready. pose proof Hready as [Hrow Hclear].
  unfold sheet_fate, sheet_body, read_excel.
  destruct (snd sheet) as [e|df]; [done|].
  destruct (dates_readable df) eqn:Hd.
  - destruct (well_formed df) eqn:Hwf.
    + eexists. unfold bind, ret, read.
      rewrite process_sheet_written by (done || lia).
      split; [reflexivity|].
      by apply (extends_write_row (projection decimal df) σ).
    + unfold bind, ret, read. by rewrite process_sheet_no_row.
  - unfold bind, ret, read. by rewrite process_sheet_unreadable.
Qed.

Lemma extends_no_row σ name :
  ready σ ->
  extends [] σ (set_current_row (current_row σ) (add_line (RowNotFound name) σ)).
Proof.
  intros Hready. pose proof (extends_refl σ Hready) as (Hc & Hcl & Hv & Hr & Hb & Hs & _).
  unfold extends; simpl in *. split_and!; try done.
  by exists [RowNotFound name].
Qed.

(** The loop over the sheets of a file. *)
Lemma sheets_loop_spec sheets σ :
  ready σ ->
  exists σ',
    for_each sheets (sheet_body decimal) σ =
    (match sheets_error decimal sheets with
     | None => Ok tt
     | Some e => Raise e
     end, σ') /\
    extends (sheets_rows decimal sheets) σ σ'.
Proof.
  revert σ. induction sheets as [|sheet sheets IH]; intros σ Hready; simpl.
  - exists σ. split; [done | by apply extends_refl].
  - pose proof (sheet_body_spec sheet σ Hready) as Hbody.
    unfold bind at 1.
    destruct (sheet_fate decimal sheet) as [fields| |e].
    + destruct Hbody as (σ1 & -> & Hext).
      destruct (IH σ1 (extends_ready _ _ _ Hready Hext)) as (σ' & -> & Hext').
      exists σ'. split; [done|].
      by apply (extends_trans [fields] _ _ _ _ Hext Hext').
    + rewrite Hbody.
      pose proof (extends_no_row σ (fst sheet) Hready) as Hext.
      destruct (IH _ (extends_ready _ _ _ Hready Hext)) as (σ' & -> & Hext').
      exists σ'. split; [done|].
      by apply (extends_trans [] _ _ _ _ Hext Hext').
    + rewrite Hbody. exists σ. split; [done | by apply extends_refl].
Qed.

(** The rows of a file are no more than its sheets. *)
Lemma sheets_rows_length sheets :
  (length (sheets_rows decimal sheets) <= length sheets)%nat.
Proof.
  induction sheets as [|sheet sheets IH]; simpl; [done|].
  destruct (sheet_fate decimal sheet); simpl; lia.
Qed.

End LoopFacts.

Lemma value_at_put_border w pos pos' :
  value_at (put_cell w pos (with_border (get_cell w pos))) pos' = value_at w pos'.
Proof.
  unfold value_at, get_cell, put_cell; simpl.
  rewrite lookup_insert. case_decide; [by subst | done].
Qed.

Lemma bordered_put_border w pos pos' :
  bordered (put_cell w pos (with_border (get_cell w pos))) pos' =
  if decide (pos = pos') then true else bordered w pos'.
Proof.
  unfold bordered, get_cell, put_cell; simpl.
  rewrite lookup_insert. by case_decide.
Qed.

Lemma border_step col σ :
  2 <= current_row σ -> 1 <= col ->
  (let* row := read current_row in
   on_ws (fun w => Worksheet_border w (row - 1) col)) σ =
  (Ok tt, set_ws (put_cell (ws σ) (current_row σ - 1, col)
                    (with_border (get_cell (ws σ) (current_row σ - 1, col)))) σ).
Proof.
  intros Hrow Hcol. unfold bind, read, on_ws, Worksheet_border.
  destruct (Z.ltb_spec (current_row σ - 1) 1), (Z.ltb_spec col 1); try lia.
  done.
Qed.

(** The loop that draws the separator on the row above the cursor. *)
Lemma border_loop_spec cols σ :
  2 <= current_row σ -> Forall (fun c => 1 <= c) cols ->
  exists w',
    for_each cols
      (fun col =>
         let* row := read current_row in
         on_ws (fun w => Worksheet_border w (row - 1) col)) σ
    = (Ok tt, set_ws w' σ) /\
    (forall pos, value_at w' pos = value_at (ws σ) pos) /\
    (forall r c, r <> current_row σ - 1 ->
       cells w' !! (r, c) = cells (ws σ) !! (r, c)) /\
    (forall pos, bordered (ws σ) pos = true -> bordered w' pos = true) /\
    (forall c, In c cols -> bordered w' (current_row σ - 1, c) = true).
Proof.
  intros Hrow Hcols. revert σ Hrow.
  induction Hcols as [|col cols Hcol _ IH]; intros σ Hrow.
  - exists (ws σ). simpl. rewrite set_ws_same. split_and!; done.
  - cbn [for_each]. unfold bind at 1. rewrite border_step by done.
    set (w1 := put_cell (ws σ) (current_row σ - 1, col)
                 (with_border (get_cell (ws σ) (current_row σ - 1, col)))).
    destruct (IH (set_ws w1 σ) Hrow) as (w' & Hrun & Hval & Hcells & Hmono & Hnew).
    exists w'. split_and!.
    + rewrite Hrun. done.
    + intros pos. rewrite Hval. apply value_at_put_border.
    + intros r c Hr. rewrite Hcells by done.
      cbn [ws set_ws]. unfold w1, put_cell. cbn [cells].
      rewrite lookup_insert_ne; [done|].
      intros [= ? ?]. lia.
    + intros pos Hb. apply Hmono. cbn [ws set_ws]. unfold w1.
      rewrite bordered_put_border. case_decide; done.
    + intros c [<-|Hin]; [|by apply Hnew].
      apply Hmono. cbn [ws set_ws]. unfold w1. rewrite bordered_put_border.
      by rewrite decide_True.
Qed.

Lemma range_1_10 : range 1 10 = [1; 2; 3; 4; 5; 6; 7; 8; 9].
Proof. reflexivity. Qed.

Section FileFacts.

Variable decimal : N -> bool.
Variable save_error : pystr -> option exn.

(** One turn of the loop over the files. *)
Lemma file_body_spec n i f σ :
  ready σ ->
  exists σ',
    file_body decimal n (i, f) σ = (Ok tt, σ') /\
    extends (file_rows decimal f) σ σ' /\
    In (ProcessingFile (file_name f)) (stdout σ') /\
    (forall e, file_error decimal f = Some e ->
       In (ErrorProcessing (file_name f) (exn_msg e)) (stdout σ')) /\
    (file_error decimal f = None -> i < n - 1 ->
     forall c, 1 <= c <= 9 -> bordered (ws σ') (current_row σ' - 1, c) = true).
Proof.
  intros Hready.
  assert (Hready1 : ready (add_line (ProcessingFile (file_name f)) σ)) by done.
  set (σ1 := add_line (ProcessingFile (file_name f)) σ) in *.
  assert (Hin1 : In (ProcessingFile (file_name f)) (stdout σ1)).
  { simpl. apply in_or_app. right. by left. }
  assert (Hkeep : forall σ2 rows l, extends rows σ1 σ2 -> In l (stdout σ1) ->
                                    In l (stdout σ2)).
  { intros σ2 rows l (_ & _ & _ & _ & _ & _ & [m ->]) Hl.
    apply in_or_app. by left. }
  unfold file_body, file_error, file_rows, ExcelFile, print.
  unfold bind at 1, modify at 1. fold σ1. unfold try_except.
  destruct (opening f) as [e|sheets].
  - simpl. eexists. split; [reflexivity|]. split_and!.
    + apply (extends_of_line _ σ _ (ProcessingFile (file_name f))).
      apply extends_add_line. by apply extends_refl.
    + simpl. apply in_or_app. by left.
    + intros e' [= <-]. simpl. apply in_or_app. right. by left.
    + done.
  - unfold bind at 1, ret at 1. unfold bind at 1.
    destruct (sheets_loop_spec decimal sheets σ1 Hready1) as (σ2 & -> & Hext).
    pose proof (extends_ready _ _ _ Hready1 Hext) as Hready2.
    destruct (sheets_error decimal sheets) as [e|].
    + simpl. eexists. split; [reflexivity|]. split_and!.
      * apply (extends_of_line _ σ _ (ProcessingFile (file_name f))).
        by apply extends_add_line.
      * simpl. apply in_or_app. left. by apply (Hkeep _ _ _ Hext).
      * intros e' [= <-]. simpl. apply in_or_app. right. by left.
      * done.
    + destruct (Z.ltb_spec i (n - 1)) as [Hlt|Hge].
      * destruct (border_loop_spec (range 1 10) σ2)
          as (w' & -> & Hval & Hcells & Hmono & Hnew).
        { destruct Hready2. lia. }
        { rewrite range_1_10. repeat constructor; lia. }
        exists (set_ws w' σ2). split; [done|]. split_and!.
        -- apply (extends_of_line _ σ _ (ProcessingFile (file_name f))).
           destruct Hext as (Hc & Hcl & Hv & Hr & Hb & Hs & Ho).
           unfold extends; simpl. split_and!; try done.
           ++ intros r c Hr'. rewrite Hcells by lia. by apply Hcl.
           ++ intros r c Hr'. rewrite Hval. by apply Hv.
           ++ intros k fields Hk. destruct (Hr _ _ Hk) as [Hlen Hf].
              split; [done|]. intros j Hj. rewrite Hval. by apply Hf.
           ++ intros pos Hpos. apply Hmono. by apply Hb.
        -- simpl. by apply (Hkeep _ _ _ Hext).
        -- done.
        -- intros _ _ c Hc. simpl. apply Hnew. rewrite range_1_10.
           simpl. lia.
      * exists σ2. split; [done|]. split_and!.
        -- by apply (extends_of_line _ σ _ (ProcessingFile (file_name f))).
        -- by apply (Hkeep _ _ _ Hext).
        -- done.
        -- lia.
Qed.

End FileFacts.

(** ** The setup of the workbook *)

Lemma bind_ok {A B} (m : M A) (k : A -> M B) σ a σ' :
  m σ = (Ok a, σ') -> bind m k σ = k a σ'.
Proof. intros H. unfold bind. by rewrite H. Qed.

Lemma preserves_bind (P : world -> Prop) (m k : M unit) :
  preserves P m -> preserves P k -> preserves P (m >> k).
Proof.
  intros Hm Hk σ Hσ. unfold bind.
  destruct (Hm σ Hσ) as (σ1 & -> & H1). by apply Hk.
Qed.

Lemma preserves_ret (P : world -> Prop) : preserves P (ret tt).
Proof. intros σ Hσ. by exists σ. Qed.

Lemma preserves_for_each {A} (P : world -> Prop) (xs : list A)
    (body : A -> M unit) :
  (forall x, In x xs -> preserves P (body x)) ->
  preserves P (for_each xs body).
Proof.
  induction xs as [|x xs IH]; intros Hbody; cbn [for_each].
  - apply preserves_ret.
  - apply preserves_bind.
    + apply Hbody. by left.
    + apply IH. intros y Hy. apply Hbody. by right.
Qed.

Lemma preserves_on_ws (P : world -> Prop) call :
  (forall σ, P σ -> exists w', call (ws σ) = Ok w' /\ P (set_ws w' σ)) ->
  preserves P (on_ws call).
Proof.
  intros Hcall σ Hσ. unfold on_ws.
  destruct (Hcall σ Hσ) as (w' & -> & HP). by eexists.
Qed.

Lemma enumerate_In {A} start (xs : list A) i x :
  In (i, x) (enumerate start xs) -> start <= i.
Proof.
  revert start. induction xs as [|y xs IH]; intros start; simpl; [done|].
  intros [[= <- <-]|Hin]; [lia|]. apply IH in Hin. lia.
Qed.

Lemma header_only_cell w row col v :
  header_only w -> 1 <= row <= 2 -> 1 <= col ->
  exists w', Worksheet_cell w row col (Some v) = Ok w' /\ header_only w'.
Proof.
  intros [Hclear Hnone] Hrow Hcol. unfold Worksheet_cell.
  destruct (Z.ltb_spec row 1), (Z.ltb_spec col 1); try lia. simpl.
  eexists. split; [reflexivity|]. split.
  - intros r c Hr. unfold put_cell; simpl.
    rewrite lookup_insert_ne; [by apply Hclear | intros [= ? ?]; lia].
  - intros pos. unfold bordered, get_cell, put_cell; simpl.
    rewrite lookup_insert. case_decide; [|apply Hnone]. simpl.
    apply (Hnone (row, col)).
Qed.

Lemma header_only_style w col :
  header_only w ->
  exists w', Worksheet_header_style w 2 col = Ok w' /\ header_only w'.
Proof.
  intros [Hclear Hnone]. unfold Worksheet_header_style.
  eexists. split; [reflexivity|]. split.
  - intros r c Hr. unfold put_cell; simpl.
    rewrite lookup_insert_ne; [by apply Hclear | intros [= ? ?]; lia].
  - intros pos. unfold bordered, get_cell, put_cell; simpl.
    rewrite lookup_insert. case_decide; [|apply Hnone]. simpl.
    apply (Hnone (2, col)).
Qed.

Lemma header_only_title w t :
  header_only w ->
  exists w', Worksheet_title w t = Ok w' /\ header_only w'.
Proof. intros H. eexists. split; [reflexivity | exact H]. Qed.

Lemma header_only_merge w range :
  header_only w ->
  exists w', Worksheet_merge_cells w range = Ok w' /\ header_only w'.
Proof. intros H. eexists. split; [reflexivity | exact H]. Qed.

Lemma header_only_width w col width :
  header_only w ->
  exists w', Worksheet_width w col width = Ok w' /\ header_only w'.
Proof. intros H. eexists. split; [reflexivity | exact H]. Qed.

Lemma setup_on_ws out sv call :
  (forall w, header_only w -> exists w', call w = Ok w' /\ header_only w') ->
  preserves (setup_inv out sv) (on_ws call).
Proof.
  intros Hcall. apply preserves_on_ws. intros σ (Hw & Hout & Hsv).
  destruct (Hcall _ Hw) as (w' & -> & Hw'). by exists w'.
Qed.

Lemma header_setup_preserves out sv :
  preserves (setup_inv out sv) header_setup.
Proof.
  unfold header_setup.
  apply preserves_bind;
    [apply setup_on_ws; intros w; apply header_only_merge|].
  apply preserves_bind;
    [apply setup_on_ws; intros w; apply header_only_merge|].
  apply preserves_bind;
    [apply setup_on_ws; intros w Hw; by apply header_only_cell|].
  apply preserves_bind;
    [apply setup_on_ws; intros w Hw; by apply header_only_cell|].
  apply preserves_bind.
  - apply preserves_for_each. intros [col header] Hin.
    apply enumerate_In in Hin. apply preserves_bind.
    + apply setup_on_ws. intros w Hw. by apply header_only_cell.
    + destruct header; [apply preserves_ret|].
      apply setup_on_ws. intros w. apply header_only_style.
  - apply preserves_for_each. intros [col width] _.
    apply setup_on_ws. intros w. apply header_only_width.
Qed.

Section RunFacts.

Variable decimal : N -> bool.
Variable save_error : pystr -> option exn.

Lemma file_body_ok n entry σ :
  exists σ', file_body decimal n entry σ = (Ok tt, σ').
Proof.
  destruct entry as [i f]. unfold file_body, print.
  unfold bind at 1, modify at 1.
  apply (try_except_Exception_ok _
           (fun e => ErrorProcessing (file_name f) (exn_msg e))).
Qed.

Lemma files_loop_ok n i fs σ :
  exists σ', files_loop decimal n i fs σ = (Ok tt, σ').
Proof.
  unfold files_loop. revert i σ.
  induction fs as [|f fs IH]; intros i σ; cbn [for_each enumerate];
    [by eexists|].
  unfold bind at 1. destruct (file_body_ok n (i, f) σ) as [σ1 ->].
  apply IH.
Qed.

Lemma files_loop_app n i xs ys σ :
  files_loop decimal n i (xs ++ ys) σ =
  files_loop decimal n (i + Z.of_nat (length xs)) ys
    (snd (files_loop decimal n i xs σ)).
Proof.
  unfold files_loop. rewrite enumerate_app, for_each_app.
  destruct (files_loop_ok n i xs σ) as [σ' Hrun]. unfold files_loop in Hrun.
  by rewrite Hrun.
Qed.

(** The loop over the files, from a world that is ready. *)
Lemma files_loop_spec n i fs σ :
  ready σ ->
  exists σ',
    files_loop decimal n i fs σ = (Ok tt, σ') /\
    extends (flat_map (file_rows decimal) fs) σ σ' /\
    (forall f, In f fs -> In (ProcessingFile (file_name f)) (stdout σ')) /\
    (forall f e, In f fs -> file_error decimal f = Some e ->
       In (ErrorProcessing (file_name f) (exn_msg e)) (stdout σ')).
Proof.
  unfold files_loop. revert i σ.
  induction fs as [|f fs IH]; intros i σ Hready; cbn [for_each enumerate flat_map].
  - exists σ. split_and!; [done | by apply extends_refl | done | done].
  - unfold bind at 1.
    destruct (file_body_spec decimal n i f σ Hready)
      as (σ1 & -> & Hext1 & Hproc & Herr & _).
    destruct (IH (i + 1) σ1 (extends_ready _ _ _ Hready Hext1))
      as (σ' & -> & Hext & Hprocs & Herrs).
    exists σ'. split; [done|].
    assert (Hkeep : forall l, In l (stdout σ1) -> In l (stdout σ')).
    { destruct Hext as (_ & _ & _ & _ & _ & _ & [m ->]).
      intros l Hl. apply in_or_app. by left. }
    split_and!.
    + by apply (extends_trans _ _ _ _ _ Hext1 Hext).
    + intros f' [<-|Hin]; [by apply Hkeep | by apply Hprocs].
    + intros f' e [<-|Hin] He; [by apply Hkeep, Herr | by apply (Herrs f')].
Qed.

(** The setup leaves the header in rows 1 and 2 and the cursor on row 3. *)
Lemma workbook_setup_spec σ :
  exists σ0,
    workbook_setup σ = (Ok tt, σ0) /\ ready σ0 /\ current_row σ0 = 3 /\
    stdout σ0 = stdout σ /\ saved σ0 = saved σ /\
    (forall pos, bordered (ws σ0) pos = false).
Proof.
  assert (HP : setup_inv (stdout σ) (saved σ) (set_ws new_sheet σ)).
  { split; [|done]. split; [|done]. intros r c _. apply lookup_empty. }
  destruct (setup_on_ws (stdout σ) (saved σ)
              (fun w => Worksheet_title w (str "Consolidado"))
              (fun w => header_only_title w _) _ HP) as (σ1 & Hrun1 & HP1).
  destruct (header_setup_preserves _ _ _ HP1)
    as (σ2 & Hrun2 & [Hclear Hnone] & Hout & Hsaved).
  exists (set_current_row 3 σ2). split.
  - unfold workbook_setup.
    rewrite (bind_ok _ _ σ tt (set_ws new_sheet σ)) by reflexivity.
    rewrite (bind_ok _ _ _ tt σ1 Hrun1).
    rewrite (bind_ok _ _ _ tt σ2 Hrun2).
    reflexivity.
  - split_and!.
    + split; [reflexivity | exact Hclear].
    + reflexivity.
    + exact Hout.
    + exact Hsaved.
    + exact Hnone.
Qed.

End RunFacts.

(** ** The run of [merge_excel_files] *)

Section MergeFacts.

Variable decimal : N -> bool.
Variable save_error : pystr -> option exn.

Lemma after_files_loop files k σ :
  exists σ0,
    workbook_setup σ = (Ok tt, σ0) /\
    after_files decimal files k σ =
    snd (files_loop decimal (Z.of_nat (length files)) 0 (take k files) σ0).
Proof.
  destruct (workbook_setup_spec σ) as (σ0 & Hrun & _).
  exists σ0. split; [exact Hrun|]. unfold after_files.
  rewrite (bind_ok _ _ _ tt σ0 Hrun). reflexivity.
Qed.

Lemma after_files_extends files j k σ :
  (j <= k)%nat ->
  ready (after_files decimal files j σ) /\
  extends (flat_map (file_rows decimal) (drop j (take k files)))
    (after_files decimal files j σ) (after_files decimal files k σ).
Proof.
  intros Hjk.
  destruct (workbook_setup_spec σ) as (σ0 & Hrun & Hready & _).
  unfold after_files. rewrite !(bind_ok _ _ _ tt σ0 Hrun). clear Hrun.
  assert (Htake : take k files = take j files ++ drop j (take k files)).
  { rewrite <- (take_drop j (take k files)) at 1.
    by rewrite take_take, Nat.min_l. }
  rewrite Htake at 2. rewrite files_loop_app.
  set (n := Z.of_nat (length files)).
  destruct (files_loop_spec decimal n 0 (take j files) σ0 Hready)
    as (σj & Hj & Hextj & _).
  rewrite Hj. cbn [snd].
  pose proof (extends_ready _ _ _ Hready Hextj) as Hreadyj.
  split; [done|].
  destruct (files_loop_spec decimal n (0 + Z.of_nat (length (take j files)))
              (drop j (take k files)) σj Hreadyj) as (σk & Hk & Hextk & _).
  by rewrite Hk.
Qed.


Lemma after_files_0 files σ :
  current_row (after_files decimal files 0 σ) = 3 /\
  stdout (after_files decimal files 0 σ) = stdout σ /\
  saved (after_files decimal files 0 σ) = saved σ /\
  forall pos, bordered (ws (after_files decimal files 0 σ)) pos = false.
Proof.
  destruct (workbook_setup_spec σ) as (σ0 & Hrun & _ & Hrow & Hout & Hsv & Hb).
  unfold after_files. rewrite (bind_ok _ _ _ tt σ0 Hrun). clear Hrun.
  rewrite take_0. unfold files_loop. cbn [enumerate for_each]. unfold ret.
  cbn [snd]. split_and!; assumption.
Qed.



(** The function as a whole: the world after all the files, then the save
    and the three lines, or the line of the fatal error. *)
Lemma merge_excel_files_run files out σ :
  merge_excel_files decimal save_error files out σ =
  (Ok tt,
   let σ' := after_files decimal files (length files) σ in
   match save_error out with
   | Some e => add_line (FatalError (exn_msg e)) σ'
   | None =>
       add_line (TotalRows (current_row σ' - 3))
         (add_line (FilesProcessed (Z.of_nat (length files)))
            (add_line (Created out) (add_saved out σ')))
   end).
Proof.
  destruct (workbook_setup_spec σ) as (σ0 & Hrun & _).
  unfold after_files. rewrite (bind_ok _ _ _ tt σ0 Hrun), firstn_all.
  unfold merge_excel_files, try_except.
  rewrite (bind_ok _ _ _ tt σ0 Hrun). clear Hrun.
  destruct (files_loop_ok decimal (Z.of_nat (length files)) 0 files σ0)
    as [σ' Hloop].
  rewrite (bind_ok _ _ _ tt σ' Hloop). rewrite Hloop. clear Hloop. cbn [snd].
  unfold wb_save. destruct (save_error out) as [e|]; reflexivity.
Qed.

End MergeFacts.

(** * The properties of the specification *)

Section SheetClaims.

Variable decimal : N -> bool.

(** C1, where the code departs from it: on a sheet with fewer than 5 rows
    [process_sheet] returns no cursor and prints no line naming the sheet;
    the IndexError raised by the read of cell (4,1), which stands before the
    [try], leaves the function, with the worksheet and the output as they
    were. *)
Theorem process_sheet_below_five_rows df cur name σ :
  (nrows df < 5)%nat ->
  process_sheet decimal df cur name σ = (Raise out_of_bounds, σ).
Proof.
  intros Hrows. apply process_sheet_unreadable.
  destruct (dates_readable df) eqn:Hd; [|done].
  apply dates_readable_spec in Hd. lia.
Qed.

(** The part of C1 the code keeps: on a sheet with 5 to 14 rows and at least
    4 columns no cell is written, the cursor comes back unchanged and the line
    naming the sheet is printed. *)
Lemma process_sheet_five_to_fourteen_rows df cur name σ :
  (5 <= nrows df < 15)%nat -> (4 <= ncols df)%nat ->
  process_sheet decimal df cur name σ =
  (Ok cur, add_line (RowNotFound name) σ) /\
  ws (add_line (RowNotFound name) σ) = ws σ.
Proof.
  intros Hrows Hcols. split; [|done]. apply process_sheet_no_row.
  - apply dates_readable_spec. lia.
  - destruct (well_formed df) eqn:Hwf; [|done].
    apply well_formed_spec in Hwf. lia.
Qed.



End SheetClaims.

Section RunClaims.

Variable decimal : N -> bool.
Variable save_error : pystr -> option exn.

Lemma process_sheet_cases df cur name σ :
  process_sheet decimal df cur name σ = (Raise out_of_bounds, σ) \/
  process_sheet decimal df cur name σ = (Raise bad_position, σ) \/
  process_sheet decimal df cur name σ =
    (Ok cur, add_line (RowNotFound name) σ) \/
  process_sheet decimal df cur name σ =
    (Ok (cur + 1), set_ws (write_row (ws σ) cur 1 (projection decimal df)) σ).
Proof.
  destruct (dates_readable df) eqn:Hd.
  - destruct (well_formed df) eqn:Hwf.
    + destruct (decide (1 <= cur)).
      * do 3 right. by apply process_sheet_written.
      * right. left. apply process_sheet_bad_cursor; [done | lia].
    + do 2 right. left. by apply process_sheet_no_row.
  - left. by apply process_sheet_unreadable.
Qed.

Lemma file_rows_length f :
  (length (file_rows decimal f) <= file_sheets f)%nat.
Proof.
  unfold file_rows, file_sheets. destruct (opening f); [done|].
  apply sheets_rows_length.
Qed.

Lemma flat_map_file_rows_length fs :
  (length (flat_map (file_rows decimal) fs) <=
   list_sum (List.map file_sheets fs))%nat.
Proof.
  induction fs as [|f fs IH]; simpl; [done|].
  rewrite length_app. pose proof (file_rows_length f). lia.
Qed.

(** C9: a call of [process_sheet] that returns gives back its cursor or its
    cursor plus one and leaves the cursor of the merger alone; one turn of
    the loop over the sheets moves the cursor of the merger by nothing or by
    one, also when it ends in an exception; the cursor starts at 3 and, from
    one file boundary to a later one, never decreases and grows by no more
    than the number of sheets of the files in between. *)
Theorem cursor_monotone :
  (forall df cur name σ r σ',
     process_sheet decimal df cur name σ = (Ok r, σ') ->
     (r = cur \/ r = cur + 1) /\ current_row σ' = current_row σ) /\
  (forall sheet σ res σ',
     sheet_body decimal sheet σ = (res, σ') ->
     current_row σ' = current_row σ \/ current_row σ' = current_row σ + 1) /\
  (forall files σ, current_row (after_files decimal files 0 σ) = 3) /\
  (forall files σ j k, (j <= k)%nat ->
     current_row (after_files decimal files j σ) <=
     current_row (after_files decimal files k σ) <=
     current_row (after_files decimal files j σ) +
     Z.of_nat (list_sum (List.map file_sheets (drop j (take k files))))).
Proof.
  split_and!.
  - intros df cur name σ r σ' Hrun.
    destruct (process_sheet_cases df cur name σ) as [H|[H|[H|H]]];
      rewrite H in Hrun; try done; injection Hrun as <- <-; auto.
  - intros sheet σ res σ'. unfold sheet_body, read_excel.
    destruct (snd sheet) as [e|df].
    + intros [= <- <-]. by left.
    + unfold bind, ret, read.
      destruct (process_sheet_cases df (current_row σ) (fst sheet) σ)
        as [H|[H|[H|H]]]; rewrite H; intros [= <- <-]; auto.
  - intros files σ. apply after_files_0.
  - intros files σ j k Hjk.
    destruct (after_files_extends decimal files j k σ Hjk) as [_ (Hcur & _)].
    pose proof (flat_map_file_rows_length (drop j (take k files))). lia.
Qed.


End RunClaims.

Section OutputClaims.

Variable decimal : N -> bool.
Variable save_error : pystr -> option exn.









End OutputClaims.

(** * Runs on the sample inputs *)

Lemma ascii_date_shaped :
  date_shaped ascii_decimal (str "27/03/2024") /\
  date_shaped ascii_decimal (str "01/01/2024").
Proof. split; repeat constructor. Qed.

Lemma process_sheet_below_five_rows_witness :
  (nrows (Sample.frame 3 7) < 5)%nat /\
  process_sheet ascii_decimal (Sample.frame 3 7) 3 (str "Hoja1") Sample.boot =
  (Raise out_of_bounds, Sample.boot).
Proof.
  assert (H : (nrows (Sample.frame 3 7) < 5)%nat) by (vm_compute; lia).
  split; [exact H|].
  exact (process_sheet_below_five_rows ascii_decimal (Sample.frame 3 7) 3
           (str "Hoja1") Sample.boot H).
Defined.

Lemma extract_date_contract_witness :
  (exists pre' d' post',
     str "Fecha Operacion: " ++ str "27/03/2024" ++ str " (cierre)" =
       pre' ++ d' ++ post' /\
     date_shaped ascii_decimal d' /\
     extract_date ascii_decimal
       (VStr (str "Fecha Operacion: " ++ str "27/03/2024" ++ str " (cierre)"))
     = VStr d') /\
  extract_date ascii_decimal
    (VStr (str "Fecha Operacion: " ++ str "27/03/2024" ++ str " (cierre)"))
  = VStr (str "27/03/2024") /\
  extract_date ascii_decimal (VStr (str "sin fecha 27-03-2024")) =
  VStr (str "sin fecha 27-03-2024") /\
  extract_date ascii_decimal (VInt 42) = VInt 42.
Proof.
  destruct (extract_date_contract ascii_decimal) as (H1 & H2 & H3 & H4).
  destruct ascii_date_shaped as [Hd _].
  split_and!.
  - exact (H1 (str "Fecha Operacion: ") (str "27/03/2024") (str " (cierre)") Hd).
  - apply (H2 (str "Fecha Operacion: ") (str "27/03/2024") (str " (cierre)") Hd).
    intros pre' d' post' Heq Hd'.
    pose proof (occurrence_position ascii_decimal _ _ _ _ _ Heq Hd') as Hin.
    assert (Hpos : Re.match_positions ascii_decimal Re.date_pattern
                     (str "Fecha Operacion: " ++ str "27/03/2024" ++
                      str " (cierre)") = [17%nat])
      by (vm_compute; reflexivity).
    rewrite Hpos in Hin. destruct Hin as [Hlen|[]].
    symmetry.
    apply (full_match_same_start ascii_decimal Re.date_pattern
             (str "Fecha Operacion: ") _ (str " (cierre)") pre' _ post' Heq Hd Hd').
    rewrite <- Hlen. reflexivity.
  - apply H3. intros pre d post Heq Hd'.
    pose proof (occurrence_position ascii_decimal _ _ _ _ _ Heq Hd') as Hin.
    assert (Hpos : Re.match_positions ascii_decimal Re.date_pattern
                     (str "sin fecha 27-03-2024") = [])
      by (vm_compute; reflexivity).
    rewrite Hpos in Hin. destruct Hin.
  - apply H4. intros s. discriminate.
Defined.

Lemma extract_date_leftmost_witness :
  extract_date ascii_decimal
    (VStr (str "a " ++ str "01/01/2024" ++ str " b 27/03/2024")) =
  VStr (str "01/01/2024").
Proof.
  destruct ascii_date_shaped as [_ Hd].
  apply (extract_date_leftmost ascii_decimal _
           (str "a ") (str "01/01/2024") (str " b 27/03/2024") eq_refl Hd).
  intros pre' d' post' Heq Hd'.
  pose proof (occurrence_position ascii_decimal _ _ _ _ _ Heq Hd') as Hin.
  assert (Hpos : Re.match_positions ascii_decimal Re.date_pattern
                   (str "a " ++ str "01/01/2024" ++ str " b 27/03/2024") =
                 [2%nat; 15%nat])
    by (vm_compute; reflexivity).
  rewrite Hpos in Hin. destruct Hin as [<-|[<-|[]]]; simpl; lia.
Defined.



Lemma cursor_monotone_witness :
  (exists σ',
     process_sheet ascii_decimal Sample.rates 3 (str "Hoja1") Sample.boot =
     (Ok 4, σ') /\ (4 = 3 \/ 4 = 3 + 1)) /\
  current_row
    (after_files ascii_decimal
       [Sample.one_sheet "a.xls"; Sample.short_sheet "b.xls";
        Sample.one_sheet "c.xls"] 1 Sample.boot) <=
  current_row
    (after_files ascii_decimal
       [Sample.one_sheet "a.xls"; Sample.short_sheet "b.xls";
        Sample.one_sheet "c.xls"] 3 Sample.boot).
Proof.
  destruct (cursor_monotone ascii_decimal) as (Hcall & _ & _ & Hfiles).
  split.
  - eexists. split; [vm_compute; reflexivity|].
    refine (proj1 (Hcall Sample.rates 3 (str "Hoja1") Sample.boot 4 _ _)).
    vm_compute. reflexivity.
  - refine (proj1 (Hfiles _ Sample.boot 1%nat 3%nat _)). lia.
Defined.





(** A run on a full disk: the function returns, the fatal error is the last
    line and no workbook is written. *)
Example merge_excel_files_disk_full :
  let run :=
    merge_excel_files ascii_decimal Sample.disk_full
      [Sample.one_sheet "a.xls"] Sample.out Sample.boot in
  fst run = Ok tt /\
  stdout (snd run) =
    [ProcessingFile (str "a.xls");
     FatalError (str "No space left on device")] /\
  saved (snd run) = [].
Proof. vm_compute. repeat split. Qed.

(** The scenario of two sheets with dated headers: rows 3 and 4 hold the two
    dates in the column of "Fecha Operacion". *)
Example two_dated_sheets :
  let dated (d : string) :=
    {| grid :=
         List.map (fun r =>
           if (r =? 4)%nat
           then [NaN; VStr (str "Fecha Operacion: " ++ str d); NaN; NaN; NaN;
                 NaN; NaN]
           else List.map (fun c => VInt (Z.of_nat (100 * r + c))) (seq 0 7))
           (seq 0 15) |} in
  let file_a :=
    {| file_name := str "A.xls";
       opening := inr [(str "S1", inr (dated "01/01/2024"%string));
                       (str "S2", inr (dated "02/01/2024"%string))] |} in
  let σ' :=
    snd (merge_excel_files ascii_decimal Sample.disk_ok [file_a] Sample.out
           Sample.boot) in
  value_at (ws σ') (2, 8) = Some (VStr (str "Fecha Operacion")) /\
  value_at (ws σ') (3, 8) = Some (VStr (str "01/01/2024")) /\
  value_at (ws σ') (4, 8) = Some (VStr (str "02/01/2024")) /\
  current_row σ' = 5.
Proof. vm_compute. repeat split. Qed.




(** * Further properties of the code *)

(** ** [extract_date] and [process_sheet] *)

Section SheetExtras.

Variable decimal : N -> bool.

Lemma search_here p s m :
  Re.match_here decimal p s = Some m -> Re.search decimal p s = Some m.
Proof. intros Hm. destruct s; simpl in *; by rewrite Hm. Qed.

(** X1: [extract_date] is idempotent: what it returns is returned unchanged
    when it is passed through [extract_date] once more. *)
Theorem extract_date_idempotent v :
  extract_date decimal (extract_date decimal v) = extract_date decimal v.
Proof.
  destruct v as [s| | | |]; try reflexivity. simpl.
  destruct (Re.search decimal Re.date_pattern s) as [m|] eqn:Hs.
  - destruct (search_sound _ _ _ _ Hs) as (_ & _ & _ & Hm & _).
    simpl. rewrite (search_here _ m m); [done|].
    rewrite <- (app_nil_r m) at 1. by apply match_here_complete.
  - simpl. by rewrite Hs.
Qed.



(** X4: a sheet whose row 14 exists but which has only 4 to 6 columns is
    treated like a sheet without row 14: nothing is written, the cursor comes
    back unchanged and the line "Row 14 not found" names the sheet. *)
Theorem process_sheet_narrow_row df cur name σ :
  (15 <= nrows df)%nat -> (4 <= ncols df < 7)%nat ->
  process_sheet decimal df cur name σ =
  (Ok cur, add_line (RowNotFound name) σ).
Proof.
  intros Hrows Hcols. apply process_sheet_no_row.
  - apply dates_readable_spec. lia.
  - destruct (well_formed df) eqn:Hwf; [|done].
    apply well_formed_spec in Hwf. lia.
Qed.

End SheetExtras.

Lemma process_sheet_narrow_row_witness :
  (15 <= nrows (Sample.frame 15 5))%nat /\
  (4 <= ncols (Sample.frame 15 5) < 7)%nat /\
  process_sheet ascii_decimal (Sample.frame 15 5) 3 (str "Hoja1") Sample.boot =
  (Ok 3, add_line (RowNotFound (str "Hoja1")) Sample.boot).
Proof.
  assert (Hr : (15 <= nrows (Sample.frame 15 5))%nat) by (vm_compute; lia).
  assert (Hc : (4 <= ncols (Sample.frame 15 5) < 7)%nat) by (vm_compute; lia).
  split; [exact Hr|]. split; [exact Hc|].
  exact (process_sheet_narrow_row ascii_decimal (Sample.frame 15 5) 3
           (str "Hoja1") Sample.boot Hr Hc).
Defined.

(** ** The loops compute the run function *)

Lemma border_loop_exact cols σ :
  2 <= current_row σ -> Forall (fun c => 1 <= c) cols ->
  for_each cols
    (fun col =>
       let* row := read current_row in
       on_ws (fun w => Worksheet_border w (row - 1) col)) σ
  = (Ok tt,
     set_ws
       (fold_left
          (fun w' col =>
             put_cell w' (current_row σ - 1, col)
               (with_border (get_cell w' (current_row σ - 1, col))))
          cols (ws σ)) σ).
Proof.
  intros Hrow Hcols. revert σ Hrow.
  induction Hcols as [|col cols Hcol _ IH]; intros σ Hrow.
  - simpl. by rewrite set_ws_same.
  - cbn [for_each fold_left]. unfold bind at 1.
    rewrite border_step by done. rewrite IH by done. reflexivity.
Qed.

Section ExactRun.

Variable decimal : N -> bool.
Variable save_error : pystr -> option exn.

Lemma sheet_body_exact sheet σ :
  1 <= current_row σ ->
  sheet_body decimal sheet σ =
  match sheet_fate decimal sheet with
  | Projected fields =>
      (Ok tt, set_current_row (current_row σ + 1)
                (set_ws (write_row (ws σ) (current_row σ) 1 fields) σ))
  | NoDataRow =>
      (Ok tt, set_current_row (current_row σ)
                (add_line (RowNotFound (fst sheet)) σ))
  | Aborts e => (Raise e, σ)
  end.
Proof.
  intros Hrow. unfold sheet_fate, sheet_body, read_excel.
  destruct (snd sheet) as [e|df]; [done|].
  unfold bind, ret, read.
  destruct (dates_readable df) eqn:Hd.
  - destruct (well_formed df) eqn:Hwf.
    + by rewrite process_sheet_written.
    + by rewrite process_sheet_no_row.
  - by rewrite process_sheet_unreadable.
Qed.

Lemma sheets_loop_exact sheets σ :
  1 <= current_row σ ->
  for_each sheets (sheet_body decimal) σ =
  (match sheets_error decimal sheets with
   | None => Ok tt
   | Some e => Raise e
   end,
   {| ws := write_rows (ws σ) (current_row σ) (sheets_rows decimal sheets);
      stdout := stdout σ ++ sheets_lines decimal sheets;
      current_row :=
        current_row σ + Z.of_nat (length (sheets_rows decimal sheets));
      saved := saved σ |}).
Proof.
  revert σ. induction sheets as [|sheet sheets IH]; intros σ Hrow;
    cbn [for_each sheets_error sheets_rows sheets_lines].
  - destruct σ. unfold ret. simpl. by rewrite app_nil_r, Z.add_0_r.
  - unfold bind at 1. rewrite sheet_body_exact by done.
    destruct (sheet_fate decimal sheet) as [fields| |e].
    + rewrite IH by (simpl; lia). simpl. do 2 f_equal.
      rewrite Nat2Z.inj_succ. lia.
    + rewrite IH by done. simpl. do 2 f_equal. by rewrite <- app_assoc.
    + destruct σ. simpl. by rewrite app_nil_r, Z.add_0_r.
Qed.

Lemma after_file_cursor n i f σ :
  current_row (after_file decimal n i f σ) =
  current_row σ + Z.of_nat (length (file_rows decimal f)).
Proof. reflexivity. Qed.

(** The body of the loop over the files, from a cursor past the header. *)
Lemma file_body_exact n i f σ :
  3 <= current_row σ ->
  file_body decimal n (i, f) σ = (Ok tt, after_file decimal n i f σ).
Proof.
  intros Hrow.
  unfold file_body, after_file, separated, file_ok, file_error, file_rows,
    file_lines, ExcelFile, print, try_except.
  unfold bind at 1, modify at 1.
  destruct (opening f) as [e|sheets].
  - destruct σ. unfold modify, add_line. simpl.
    by rewrite <- app_assoc, Z.add_0_r.
  - unfold bind at 1, ret at 1. unfold bind at 1.
    rewrite sheets_loop_exact by (simpl; lia).
    destruct (sheets_error decimal sheets) as [e|].
    + unfold modify, add_line. simpl. by rewrite <- !app_assoc.
    + cbn [andb]. destruct (i <? n - 1).
      * rewrite border_loop_exact.
        -- unfold set_ws. simpl. by rewrite app_nil_r, <- app_assoc.
        -- simpl. lia.
        -- rewrite range_1_10. repeat constructor; lia.
      * unfold ret. simpl. by rewrite app_nil_r, <- app_assoc.
Qed.

Lemma files_loop_exact n i fs σ :
  3 <= current_row σ ->
  files_loop decimal n i fs σ = (Ok tt, files_world decimal n i fs σ).
Proof.
  unfold files_loop. revert i σ.
  induction fs as [|f fs IH]; intros i σ Hrow;
    cbn [enumerate for_each files_world]; [done|].
  unfold bind at 1. rewrite file_body_exact by done.
  apply IH. rewrite after_file_cursor. lia.
Qed.

Lemma workbook_setup_exact σ :
  workbook_setup σ = (Ok tt, set_current_row 3 (set_ws header_sheet σ)).
Proof. destruct σ. vm_compute. reflexivity. Qed.

Lemma after_files_exact files k σ :
  after_files decimal files k σ =
  files_world decimal (Z.of_nat (length files)) 0 (take k files)
    (set_current_row 3 (set_ws header_sheet σ)).
Proof.
  unfold after_files.
  rewrite (bind_ok _ _ _ tt _ (workbook_setup_exact σ)).
  by rewrite files_loop_exact.
Qed.

(** The world a call of [merge_excel_files] ends in. *)
Lemma merge_excel_files_exact files out σ :
  snd (merge_excel_files decimal save_error files out σ) =
  let σ' :=
    files_world decimal (Z.of_nat (length files)) 0 files
      (set_current_row 3 (set_ws header_sheet σ)) in
  match save_error out with
  | Some e => add_line (FatalError (exn_msg e)) σ'
  | None =>
      add_line (TotalRows (current_row σ' - 3))
        (add_line (FilesProcessed (Z.of_nat (length files)))
           (add_line (Created out) (add_saved out σ')))
  end.
Proof.
  rewrite merge_excel_files_run. cbn [snd]. cbv zeta.
  by rewrite after_files_exact, firstn_all.
Qed.

End ExactRun.

(** ** What the run function does to the worksheet *)

Lemma same_format_refl w : same_format w w.
Proof. by split_and!. Qed.

Lemma same_format_trans w1 w2 w3 :
  same_format w1 w2 -> same_format w2 w3 -> same_format w1 w3.
Proof.
  intros (Ht & Hm & Hw & Hs) (Ht' & Hm' & Hw' & Hs').
  split_and!; try congruence.
  intros pos. destruct (Hs pos) as [<- <-]. apply Hs'.
Qed.

Lemma same_format_write w pos v : same_format w (write w pos v).
Proof.
  split_and!; try reflexivity. intros pos'.
  unfold write, get_cell, put_cell; simpl. rewrite lookup_insert.
  case_decide; [subst|done]. by destruct v.
Qed.

Lemma same_format_border w pos :
  same_format w (put_cell w pos (with_border (get_cell w pos))).
Proof.
  split_and!; try reflexivity. intros pos'.
  unfold get_cell, put_cell; simpl. rewrite lookup_insert.
  case_decide; [by subst | done].
Qed.

Lemma same_format_write_row w row col vs :
  same_format w (write_row w row col vs).
Proof.
  revert w col. induction vs as [|v vs IH]; intros w col; simpl.
  - apply same_format_refl.
  - eapply same_format_trans; [apply same_format_write | apply IH].
Qed.

Lemma same_format_write_rows w row rows :
  same_format w (write_rows w row rows).
Proof.
  revert w row. induction rows as [|fields rows IH]; intros w row; simpl.
  - apply same_format_refl.
  - eapply same_format_trans; [apply same_format_write_row | apply IH].
Qed.

Lemma fold_border_spec cols w row :
  let w' :=
    fold_left
      (fun w' col => put_cell w' (row, col) (with_border (get_cell w' (row, col))))
      cols w in
  same_format w w' /\
  (forall pos, value_at w' pos = value_at w pos) /\
  (forall pos, bordered w' pos = true <->
               bordered w pos = true \/ (fst pos = row /\ In (snd pos) cols)) /\
  (forall pos, is_Some (cells w' !! pos) <->
               is_Some (cells w !! pos) \/ (fst pos = row /\ In (snd pos) cols)).
Proof.
  cbv zeta. revert w. induction cols as [|col cols IH]; intros w; simpl.
  - split_and!; [apply same_format_refl | done | |];
      intros pos; tauto.
  - destruct (IH (put_cell w (row, col) (with_border (get_cell w (row, col)))))
      as (Hf & Hv & Hb & Hc).
    split_and!.
    + eapply same_format_trans; [apply same_format_border | apply Hf].
    + intros pos. rewrite Hv. apply value_at_put_border.
    + intros [r c]. rewrite Hb, bordered_put_border. simpl.
      case_decide as Heq.
      * injection Heq as <- <-. tauto.
      * assert (~ (r = row /\ col = c)) by (intros [-> ->]; done). tauto.
    + intros [r c]. rewrite Hc. unfold put_cell; simpl.
      rewrite lookup_insert. simpl.
      case_decide as Heq.
      * injection Heq as <- <-.
        assert (is_Some (Some (with_border (get_cell w (row, col)))))
          by (by eexists).
        tauto.
      * assert (~ (r = row /\ col = c)) by (intros [-> ->]; done). tauto.
Qed.

Lemma In_range_1_10 c : In c (range 1 10) <-> 1 <= c <= 9.
Proof. rewrite range_1_10. simpl. lia. Qed.

Lemma border_row_spec w row :
  same_format w (border_row w row) /\
  (forall pos, value_at (border_row w row) pos = value_at w pos) /\
  (forall r c, bordered (border_row w row) (r, c) = true <->
               bordered w (r, c) = true \/ (r = row /\ 1 <= c <= 9)) /\
  (forall r c, is_Some (cells (border_row w row) !! (r, c)) <->
               is_Some (cells w !! (r, c)) \/ (r = row /\ 1 <= c <= 9)).
Proof.
  destruct (fold_border_spec (range 1 10) w row) as (Hf & Hv & Hb & Hc).
  split_and!; [exact Hf | exact Hv | |].
  - intros r c. rewrite <- In_range_1_10. apply (Hb (r, c)).
  - intros r c. rewrite <- In_range_1_10. apply (Hc (r, c)).
Qed.




Section RunWorld.

Variable decimal : N -> bool.
Variable save_error : pystr -> option exn.





Lemma files_world_saved n i fs σ :
  saved (files_world decimal n i fs σ) = saved σ.
Proof.
  revert i σ. induction fs as [|f fs IH]; intros i σ; simpl; [done|].
  by rewrite IH.
Qed.

Lemma after_file_format n i f σ :
  same_format (ws σ) (ws (after_file decimal n i f σ)).
Proof.
  unfold after_file. cbn [ws].
  destruct (separated decimal n i f).
  - eapply same_format_trans; [apply same_format_write_rows|].
    apply border_row_spec.
  - apply same_format_write_rows.
Qed.

Lemma files_world_format n i fs σ :
  same_format (ws σ) (ws (files_world decimal n i fs σ)).
Proof.
  revert i σ. induction fs as [|f fs IH]; intros i σ; simpl.
  - apply same_format_refl.
  - eapply same_format_trans; [apply after_file_format | apply IH].
Qed.





(** The worksheet and the cursor after the loop depend on the worksheet and
    the cursor before it, and on nothing else of the world. *)
Lemma files_world_fresh n i fs σ1 σ2 :
  ws σ1 = ws σ2 -> current_row σ1 = current_row σ2 ->
  ws (files_world decimal n i fs σ1) = ws (files_world decimal n i fs σ2) /\
  current_row (files_world decimal n i fs σ1) =
  current_row (files_world decimal n i fs σ2).
Proof.
  revert i σ1 σ2. induction fs as [|f fs IH]; intros i σ1 σ2 Hw Hc; simpl;
    [done|].
  apply IH; unfold after_file; cbn [ws current_row]; by rewrite ?Hw, ?Hc.
Qed.

(** The worksheet and the cursor a call ends with are those of the run
    function on the freshly set up workbook. *)
Lemma final_sheet files out σ :
  let σ' := snd (merge_excel_files decimal save_error files out σ) in
  let σL :=
    files_world decimal (Z.of_nat (length files)) 0 files
      (set_current_row 3 (set_ws header_sheet σ)) in
  ws σ' = ws σL /\ current_row σ' = current_row σL.
Proof.
  cbv zeta. rewrite merge_excel_files_exact. cbv zeta.
  by destruct (save_error out).
Qed.

End RunWorld.

(** ** The header *)

Lemma header_sheet_clear :
  clear_from header_sheet 3 /\ forall pos, bordered header_sheet pos = false.
Proof.
  destruct (workbook_setup_spec Sample.boot)
    as (σ0 & Hrun & [_ Hclear] & Hrow & _ & _ & Hnone).
  unfold header_sheet. rewrite Hrun. clear Hrun. cbn [snd].
  rewrite Hrow in Hclear. split; [exact Hclear | exact Hnone].
Qed.

Lemma header_sheet_format :
  title header_sheet = str "Consolidado" /\
  merged_cells header_sheet = [str "D1:E1"; str "F1:G1"] /\
  column_width header_sheet =
    combine column_letters [5; 15; 15; 15; 15; 15; 15; 15; 15] /\
  value_at header_sheet (1, 4) =
    Some (VStr (str "(a) Cotizaci" ++ [243%N] ++ str "n M.E./US$")) /\
  value_at header_sheet (1, 6) = Some (VStr (str "Bs./M.E.")).
Proof. vm_compute. repeat split. Qed.

Lemma header_sheet_labels j header :
  headers !! j = Some header ->
  value_at header_sheet (2, 1 + Z.of_nat j) = Some (VStr header) /\
  bold (get_cell header_sheet (2, 1 + Z.of_nat j)) =
    match header with [] => false | _ :: _ => true end /\
  centered (get_cell header_sheet (2, 1 + Z.of_nat j)) =
    match header with [] => false | _ :: _ => true end.
Proof.
  do 9 (destruct j as [|j]; [intros [= <-]; vm_compute; repeat split|]).
  intros H. vm_compute in H. discriminate.
Qed.

Lemma value_at_write_rows_above w row rows r c :
  r < row -> value_at (write_rows w row rows) (r, c) = value_at w (r, c).
Proof.
  revert w row. induction rows as [|fields rows IH]; intros w row Hr; simpl;
    [done|].
  rewrite IH by lia. rewrite value_at_write_row. by rewrite decide_False by lia.
Qed.

Section RunExtras.

Variable decimal : N -> bool.
Variable save_error : pystr -> option exn.

Lemma files_world_values_above n i fs σ r c :
  r < current_row σ ->
  value_at (ws (files_world decimal n i fs σ)) (r, c) = value_at (ws σ) (r, c).
Proof.
  revert i σ. induction fs as [|f fs IH]; intros i σ Hr; simpl; [done|].
  rewrite IH by (rewrite after_file_cursor; lia).
  unfold after_file. cbn [ws]. destruct (separated decimal n i f).
  - destruct (border_row_spec
                (write_rows (ws σ) (current_row σ) (file_rows decimal f))
                (current_row σ + Z.of_nat (length (file_rows decimal f)) - 1))
      as (_ & Hv & _).
    rewrite Hv. by apply value_at_write_rows_above.
  - by apply value_at_write_rows_above.
Qed.


(** X6: whatever the files, the header is in the worksheet at the end as the
    setup wrote it: the two group labels in D1 and F1, and in row 2 the nine
    column labels, bold and centred exactly where the label is not empty. *)
Theorem header_kept files out σ :
  let w := ws (snd (merge_excel_files decimal save_error files out σ)) in
  value_at w (1, 4) =
    Some (VStr (str "(a) Cotizaci" ++ [243%N] ++ str "n M.E./US$")) /\
  value_at w (1, 6) = Some (VStr (str "Bs./M.E.")) /\
  forall j header,
    headers !! j = Some header ->
    value_at w (2, 1 + Z.of_nat j) = Some (VStr header) /\
    bold (get_cell w (2, 1 + Z.of_nat j)) =
      match header with [] => false | _ :: _ => true end /\
    centered (get_cell w (2, 1 + Z.of_nat j)) =
      match header with [] => false | _ :: _ => true end.
Proof.
  cbv zeta. destruct (final_sheet decimal save_error files out σ) as [-> _].
  destruct header_sheet_format as (_ & _ & _ & HD1 & HF1).
  pose proof header_sheet_labels as Hlabels.
  revert HD1 HF1 Hlabels. generalize header_sheet.
  intros w0 HD1 HF1 Hlabels.
  pose proof (files_world_format decimal (Z.of_nat (length files)) 0 files
                (set_current_row 3 (set_ws w0 σ)))
    as (_ & _ & _ & Hstyle).
  split; [|split].
  - rewrite files_world_values_above by (simpl; lia). exact HD1.
  - rewrite files_world_values_above by (simpl; lia). exact HF1.
  - intros j header Hj.
    destruct (Hlabels j header Hj) as (Hv & Hb & Hc).
    destruct (Hstyle (2, 1 + Z.of_nat j)) as [-> ->].
    rewrite files_world_values_above by (simpl; lia).
    cbn [ws set_current_row set_ws].
    split; [exact Hv|]. split; [exact Hb | exact Hc].
Qed.

(** X7: the processing of the files never touches the format of the sheet:
    at the end the title is "Consolidado", the merged ranges are D1:E1 and
    F1:G1, the widths of columns A to I are those of the setup, and no cell
    from row 3 on is bold or centred. *)
Theorem format_kept files out σ :
  let w := ws (snd (merge_excel_files decimal save_error files out σ)) in
  title w = str "Consolidado" /\
  merged_cells w = [str "D1:E1"; str "F1:G1"] /\
  column_width w = combine column_letters [5; 15; 15; 15; 15; 15; 15; 15; 15] /\
  forall r c, 3 <= r ->
    bold (get_cell w (r, c)) = false /\ centered (get_cell w (r, c)) = false.
Proof.
  cbv zeta. destruct (final_sheet decimal save_error files out σ) as [-> _].
  destruct header_sheet_format as (Ht & Hm & Hw & _).
  destruct header_sheet_clear as [Hclear _].
  revert Ht Hm Hw Hclear. generalize header_sheet. intros w0 Ht Hm Hw Hclear.
  pose proof (files_world_format decimal (Z.of_nat (length files)) 0 files
                (set_current_row 3 (set_ws w0 σ)))
    as (Ht' & Hm' & Hw' & Hstyle).
  cbn [ws set_current_row set_ws] in Ht', Hm', Hw', Hstyle.
  split; [by rewrite Ht'|]. split; [by rewrite Hm'|]. split; [by rewrite Hw'|].
  intros r c Hr. destruct (Hstyle (r, c)) as [-> ->].
  unfold get_cell. rewrite (Hclear r c Hr). split; reflexivity.
Qed.




(** X11: every call starts from a fresh workbook: the worksheet and the
    cursor it ends with are the same from any two worlds, whatever sheet,
    cursor, output and saved files the earlier calls left. *)
Theorem merge_starts_fresh files out σ1 σ2 :
  ws (snd (merge_excel_files decimal save_error files out σ1)) =
  ws (snd (merge_excel_files decimal save_error files out σ2)) /\
  current_row (snd (merge_excel_files decimal save_error files out σ1)) =
  current_row (snd (merge_excel_files decimal save_error files out σ2)).
Proof.
  destruct (final_sheet decimal save_error files out σ1) as [-> ->].
  destruct (final_sheet decimal save_error files out σ2) as [-> ->].
  generalize header_sheet. intros w0.
  apply files_world_fresh; reflexivity.
Qed.

End RunExtras.

Lemma header_kept_witness :
  headers !! 2%nat = Some (str "Moneda/Pa" ++ [237%N] ++ str "s") /\
  value_at
    (ws (snd (merge_excel_files ascii_decimal Sample.disk_ok
                [Sample.one_sheet "a.xls"] Sample.out Sample.boot)))
    (2, 1 + Z.of_nat 2) =
  Some (VStr (str "Moneda/Pa" ++ [237%N] ++ str "s")).
Proof.
  assert (H : headers !! 2%nat = Some (str "Moneda/Pa" ++ [237%N] ++ str "s"))
    by reflexivity.
  split; [exact H|].
  destruct (header_kept ascii_decimal Sample.disk_ok
              [Sample.one_sheet "a.xls"] Sample.out Sample.boot)
    as (_ & _ & Hlabels).
  exact (proj1 (Hlabels 2%nat _ H)).
Defined.

Lemma format_kept_witness :
  3 <= 3 /\
  bold
    (get_cell
       (ws (snd (merge_excel_files ascii_decimal Sample.disk_ok
                   [Sample.one_sheet "a.xls"] Sample.out Sample.boot)))
       (3, 2)) = false.
Proof.
  assert (H : 3 <= 3) by lia.
  split; [exact H|].
  destruct (format_kept ascii_decimal Sample.disk_ok
              [Sample.one_sheet "a.xls"] Sample.out Sample.boot)
    as (_ & _ & _ & Hdata).
  exact (proj1 (Hdata 3 2 H)).
Defined.

